(** * appcontabilidad: the stock-adjusting ledger of the three Express servers

    The repository holds three versions of one Express/Mongoose backend:

    - the inventory server  (products, sales by catalogue price, manual stock
      adjustment, deletion)                         -> [Module Inventario];
    - the accounting server [src/backend/server.js] (purchases, payments,
      collections, schemas without validators)      -> [Module Contabilidad];
    - the unified server    (purchases and sales, schemas with [required] and
      [min: 1] validators)                          -> [Module Backend].

    Modelling conventions.

    - A JavaScript [Number] is an exact rational ([Q]); [0.21] is [21 # 100].
      [NaN] and the infinities are outside the model.  A statement about a
      computed amount names the operations of the code, in the order the
      code applies them, or speaks of its sign and order, which binary64
      arithmetic keeps; identities that regroup sums or products hold of
      rationals only.  Where rounding decides, the arithmetic of the
      handlers is evaluated on binary64 floats ([Module Binary64]).
    - Request bodies are well typed: every item carries a product id that
      is a well-formed ObjectId, a numeric [cantidad] and a numeric
      [precioUnitario].
    - A Mongoose collection is a finite map from [_id] to document
      ([Producto]) or the list of inserted documents ([Venta], [Compra]);
      [fecha] and the [_id] of sale and purchase records are left out.
    - A handler is a computation over the database that either goes on,
      returns an HTTP response early, or throws; [try ... catch] turns a
      thrown error into the response the [catch] block builds.  The errors
      that are thrown are the ones the code and the schemas produce
      (validation, duplicate key, a field read on [null], a rejected
      Cloudinary call); a failing connection to the store is not modelled,
      and the texts of library error messages are abbreviated. *)

From Stdlib Require Import QArith Qminmax Lqa PrimFloat.
From stdpp Require Import gmap strings list fin_maps.

Set Warnings "-inexact-float".

Open Scope Q_scope.

(** ** JavaScript values *)

Definition ObjectId := string.

(** [x < y] on Numbers. *)
Definition Qltb (x y : Q) : bool := negb (Qle_bool y x).

(** Truthiness of a string value that may be absent: [undefined], [null] and
    [''] are falsy. *)
Definition truthy (s : option string) : bool :=
  match s with
  | Some s => negb (String.eqb s "")
  | None => false
  end.

(** [x || d] on such a value. *)
Definition or_default (s : option string) (d : string) : string :=
  match s with
  | Some s => if String.eqb s "" then d else s
  | None => d
  end.

(** A thrown JavaScript error: its [name], its [message] and, for driver
    errors, its numeric [code]. *)
Record JsError := { name : string; code : option N; message : string }.

Definition ValidationError (msg : string) : JsError :=
  {| name := "ValidationError"; code := None; message := msg |}.
Definition MongoServerError (c : N) (msg : string) : JsError :=
  {| name := "MongoServerError"; code := Some c; message := msg |}.
Definition TypeError (msg : string) : JsError :=
  {| name := "TypeError"; code := None; message := msg |}.

(** ** Documents *)

Module Producto.
Record t := {
  codigo : string;
  nombre : string;
  categoria : string;
  stock : Q;
  precioCosto : Q;
  precioVenta : Q;
  proveedor : string;
  fotoUrl : string;
  fotoId : string
}.

(** [producto.stock = s] *)
Definition set_stock (p : t) (s : Q) : t :=
  {| codigo := codigo p; nombre := nombre p; categoria := categoria p;
     stock := s; precioCosto := precioCosto p; precioVenta := precioVenta p;
     proveedor := proveedor p; fotoUrl := fotoUrl p; fotoId := fotoId p |}.
End Producto.

(** An element of the [productos] array of a sale or purchase record. *)
Module LineItem.
Record t := {
  productoId : ObjectId;
  codigo : string;
  nombre : string;
  cantidad : Q;
  precioUnitario : Q;
  subtotal : Q
}.
End LineItem.

Module Venta.
Record t := {
  productos : list LineItem.t;
  total : Q;
  iva : Q;
  cliente : string
}.
End Venta.

Module Compra.
Record t := {
  productos : list LineItem.t;
  total : Q;
  iva : Q;
  proveedor : string
}.
End Compra.

(** An element of [req.body.productos]. *)
Module Item.
Record t := {
  productoId : ObjectId;
  cantidad : Q;
  precioUnitario : Q
}.
End Item.

(** ** The database and the HTTP response *)

Record DB := {
  Productos : gmap ObjectId Producto.t;
  Ventas : list Venta.t;
  Compras : list Compra.t
}.

Inductive Json :=
| JProducto (_id : ObjectId) (p : Producto.t)
| JVenta (v : Venta.t)
| JCompra (c : Compra.t)
| JMensaje (mensaje : string)
| JError (error : string).

Record Response := { status : nat; body : Json }.

(** [res.json(j)] and [res.status(s).json(j)] *)
Definition res_json (j : Json) : Response := {| status := 200; body := j |}.
Definition res_status_json (s : nat) (j : Json) : Response :=
  {| status := s; body := j |}.

(** ** Handler computations *)

Inductive Control (A : Type) : Type :=
| Normal (a : A)
| Return (r : Response)
| Throw (e : JsError).
Arguments Normal {A} a.
Arguments Return {A} r.
Arguments Throw {A} e.

Definition M (A : Type) : Type := DB -> DB * Control A.

Definition ret {A} (a : A) : M A := fun db => (db, Normal a).
Definition return_ {A} (r : Response) : M A := fun db => (db, Return r).
Definition throw {A} (e : JsError) : M A := fun db => (db, Throw e).

Definition bind {A B} (m : M A) (k : A -> M B) : M B :=
  fun db =>
    match m db with
    | (db', Normal a) => k a db'
    | (db', Return r) => (db', Return r)
    | (db', Throw e) => (db', Throw e)
    end.

Notation "x <- m ;; k" := (bind m (fun x => k))
  (at level 100, m at next level, right associativity).
Notation "m ;;; k" := (bind m (fun _ => k))
  (at level 100, right associativity).

(** [try { m } catch (err) { h err }] around a whole handler body. *)
Definition try_catch (m : M Response) (h : JsError -> Response)
  (db : DB) : DB * Response :=
  match m db with
  | (db', Normal r) => (db', r)
  | (db', Return r) => (db', r)
  | (db', Throw e) => (db', h e)
  end.

(** ** Mongoose operations *)

(** [Producto.findById(id)]: the document or [null]. *)
Definition findById (id : ObjectId) : M (option Producto.t) :=
  fun db => (db, Normal (Productos db !! id)).

(** [producto.save()] on a document loaded from the collection. *)
Definition save_producto (id : ObjectId) (p : Producto.t) : M unit :=
  fun db =>
    ({| Productos := <[id := p]> (Productos db);
        Ventas := Ventas db; Compras := Compras db |}, Normal tt).

(** [nuevaVenta.save()]: the schema validators run first; a failure rejects
    with a ValidationError and nothing is inserted. *)
Definition save_venta (validate : Venta.t -> option string) (v : Venta.t)
  : M unit :=
  fun db =>
    match validate v with
    | Some msg => (db, Throw (ValidationError msg))
    | None =>
        ({| Productos := Productos db; Ventas := Ventas db ++ [v];
            Compras := Compras db |}, Normal tt)
    end.

Definition save_compra (validate : Compra.t -> option string) (c : Compra.t)
  : M unit :=
  fun db =>
    match validate c with
    | Some msg => (db, Throw (ValidationError msg))
    | None =>
        ({| Productos := Productos db; Ventas := Ventas db;
            Compras := Compras db ++ [c] |}, Normal tt)
    end.

(** ** Cloudinary, as far as the handlers use it *)

Record Cloudinary := {
  (** [cloudinary.uploader.upload(base64, ...)]: [secure_url] and
      [public_id], or a rejection. *)
  upload : string -> JsError + (string * string);
  (** [cloudinary.uploader.destroy(public_id)] *)
  destroy : string -> option JsError
}.

(** * The inventory server *)

Module Inventario.

(** [req.body] of POST /api/productos. *)
Module Body.
Record t := {
  codigo : string;
  nombre : string;
  categoria : string;
  stock : option Q;
  precioCosto : Q;
  precioVenta : Q;
  proveedor : string;
  base64Foto : option string
}.
End Body.

(** [productoSchema]: [codigo] and [nombre] are required (an empty string
    does not satisfy [required]), [stock] defaults to 0. *)
Definition productoSchema_validate (p : Producto.t) : option string :=
  if String.eqb (Producto.codigo p) "" then
    Some "Producto validation failed: codigo: Path `codigo` is required."
  else if String.eqb (Producto.nombre p) "" then
    Some "Producto validation failed: nombre: Path `nombre` is required."
  else None.

(** The unique index on [codigo]. *)
Definition codigo_en_uso (c : string) (m : gmap ObjectId Producto.t) : bool :=
  bool_decide (map_Exists (fun _ p => Producto.codigo p = c) m).

(** [nuevo.save()] on a new product: validation, then the insert, which
    the unique indexes on [_id] and [codigo] reject with code 11000. *)
Definition save_nuevo (id : ObjectId) (p : Producto.t) : M unit :=
  fun db =>
    match productoSchema_validate p with
    | Some msg => (db, Throw (ValidationError msg))
    | None =>
        if codigo_en_uso (Producto.codigo p) (Productos db)
           || bool_decide (is_Some (Productos db !! id))
        then (db, Throw (MongoServerError 11000 "E11000 duplicate key error"))
        else ({| Productos := <[id := p]> (Productos db);
                 Ventas := Ventas db; Compras := Compras db |}, Normal tt)
    end.

(** [ventaSchema] declares types only: every record passes. *)
Definition ventaSchema_validate (v : Venta.t) : option string := None.

(** POST /api/productos; [id] is the [_id] Mongoose gives the new
    document. *)
Definition post_productos (cl : Cloudinary) (id : ObjectId)
  (body : Body.t) : DB -> DB * Response :=
  try_catch
    (foto <- (if truthy (Body.base64Foto body) then
                match upload cl (default "" (Body.base64Foto body)) with
                | inl err => throw err
                | inr (secure_url, public_id) => ret (secure_url, public_id)
                end
              else ret ("", ""));;
     let nuevo :=
       {| Producto.codigo := Body.codigo body;
          Producto.nombre := Body.nombre body;
          Producto.categoria := Body.categoria body;
          Producto.stock := default 0 (Body.stock body);
          Producto.precioCosto := Body.precioCosto body;
          Producto.precioVenta := Body.precioVenta body;
          Producto.proveedor := Body.proveedor body;
          Producto.fotoUrl := fst foto;
          Producto.fotoId := snd foto |} in
     save_nuevo id nuevo;;;
     ret (res_json (JProducto id nuevo)))
    (fun err =>
       if bool_decide (code err = Some 11000%N)
       then res_status_json 400 (JError "Código ya existe")
       else res_status_json 500 (JError (message err))).

(** The [for (const item of productos)] loop of POST /api/ventas, with
    the running [total] and the [productosVendidos] array. *)
Fixpoint ventas_for (items : list Item.t) (total : Q)
  (productosVendidos : list LineItem.t) : M (Q * list LineItem.t) :=
  match items with
  | [] => ret (total, productosVendidos)
  | item :: rest =>
      producto <- findById (Item.productoId item);;
      match producto with
      | None =>
          return_ (res_status_json 404 (JError "Producto no encontrado"))
      | Some producto =>
          if Qltb (Producto.stock producto) (Item.cantidad item) then
            return_ (res_status_json 400
              (JError ("Stock insuficiente para " +:+ Producto.nombre producto)))
          else
            let subtotal := Producto.precioVenta producto * Item.cantidad item in
            let total := total + subtotal in
            let producto :=
              Producto.set_stock producto
                (Producto.stock producto - Item.cantidad item) in
            save_producto (Item.productoId item) producto;;;
            ventas_for rest total
              (productosVendidos ++
               [{| LineItem.productoId := Item.productoId item;
                   LineItem.codigo := Producto.codigo producto;
                   LineItem.nombre := Producto.nombre producto;
                   LineItem.cantidad := Item.cantidad item;
                   LineItem.precioUnitario := Producto.precioVenta producto;
                   LineItem.subtotal := subtotal |}])
      end
  end.

(** POST /api/ventas *)
Definition post_ventas (productos : list Item.t) (cliente : option string)
  : DB -> DB * Response :=
  try_catch
    (acc <- ventas_for productos 0 [];;
     let '(total, productosVendidos) := acc in
     let iva := total * 0.21 in
     let totalConIva := total + iva in
     let nuevaVenta :=
       {| Venta.productos := productosVendidos;
          Venta.total := totalConIva;
          Venta.iva := iva;
          Venta.cliente := or_default cliente "Mostrador" |} in
     save_venta ventaSchema_validate nuevaVenta;;;
     ret (res_json (JVenta nuevaVenta)))
    (fun err => res_status_json 500 (JError (message err))).

(** PATCH /api/productos/:id/stock; reading [producto.stock] of [null]
    throws a TypeError, which the [catch] block answers. *)
Definition patch_stock (id : ObjectId) (cantidad : Q)
  : DB -> DB * Response :=
  try_catch
    (producto <- findById id;;
     match producto with
     | None => throw (TypeError "Cannot read properties of null (reading 'stock')")
     | Some producto =>
         let producto :=
           Producto.set_stock producto (Producto.stock producto + cantidad) in
         let producto :=
           if Qltb (Producto.stock producto) 0
           then Producto.set_stock producto 0 else producto in
         save_producto id producto;;;
         ret (res_json (JProducto id producto))
     end)
    (fun err => res_status_json 500 (JError (message err))).

(** [producto.deleteOne()] *)
Definition deleteOne (id : ObjectId) : M unit :=
  fun db =>
    ({| Productos := delete id (Productos db);
        Ventas := Ventas db; Compras := Compras db |}, Normal tt).

(** DELETE /api/productos/:id *)
Definition delete_producto (cl : Cloudinary) (id : ObjectId)
  : DB -> DB * Response :=
  try_catch
    (producto <- findById id;;
     match producto with
     | None => throw (TypeError "Cannot read properties of null (reading 'fotoId')")
     | Some producto =>
         (if truthy (Some (Producto.fotoId producto)) then
            match destroy cl (Producto.fotoId producto) with
            | Some err => throw err
            | None => ret tt
            end
          else ret tt);;;
         deleteOne id;;;
         ret (res_json (JMensaje "Producto eliminado"))
     end)
    (fun err => res_status_json 500 (JError (message err))).

End Inventario.


(** * Purchases: the accounting server and the unified server

    POST /api/compras has the same body in [src/backend/server.js] and in the
    unified server; the two differ in [compraSchema] only, which is the
    [validate] argument of [post_compras_with]. *)

(** The [for (const item of productos)] loop of POST /api/compras, with the
    running [total] and the [productosComprados] array. *)
Fixpoint compras_for (items : list Item.t) (total : Q)
  (productosComprados : list LineItem.t) : M (Q * list LineItem.t) :=
  match items with
  | [] => ret (total, productosComprados)
  | item :: rest =>
      producto <- findById (Item.productoId item);;
      match producto with
      | None =>
          return_ (res_status_json 404 (JError "Producto no encontrado"))
      | Some producto =>
          let subtotal := Item.precioUnitario item * Item.cantidad item in
          let total := total + subtotal in
          let producto :=
            Producto.set_stock producto
              (Producto.stock producto + Item.cantidad item) in
          save_producto (Item.productoId item) producto;;;
          compras_for rest total
            (productosComprados ++
             [{| LineItem.productoId := Item.productoId item;
                 LineItem.codigo := Producto.codigo producto;
                 LineItem.nombre := Producto.nombre producto;
                 LineItem.cantidad := Item.cantidad item;
                 LineItem.precioUnitario := Item.precioUnitario item;
                 LineItem.subtotal := subtotal |}])
      end
  end.

Definition post_compras_with (validate : Compra.t -> option string)
  (productos : list Item.t) (proveedor : option string)
  : DB -> DB * Response :=
  try_catch
    (acc <- compras_for productos 0 [];;
     let '(total, productosComprados) := acc in
     let iva := total * 0.21 in
     let totalConIva := total + iva in
     let nuevaCompra :=
       {| Compra.productos := productosComprados;
          Compra.total := totalConIva;
          Compra.iva := iva;
          Compra.proveedor := or_default proveedor "Desconocido" |} in
     save_compra validate nuevaCompra;;;
     ret (res_json (JCompra nuevaCompra)))
    (fun err => res_status_json 500 (JError (message err))).

Module Contabilidad.

(** [compraSchema] of [src/backend/server.js] declares types only. *)
Definition compraSchema_validate (c : Compra.t) : option string := None.

(** POST /api/compras *)
Definition post_compras := post_compras_with compraSchema_validate.

End Contabilidad.

(** * The unified server *)

Module Backend.

(** The element schema shared by [ventaSchema] and [compraSchema]:
    [codigo] and [nombre] required, [cantidad] required with [min: 1];
    the message names the first failing path. *)
Definition item_validate (li : LineItem.t) : option string :=
  if String.eqb (LineItem.codigo li) "" then
    Some "Path `codigo` is required."
  else if String.eqb (LineItem.nombre li) "" then
    Some "Path `nombre` is required."
  else if Qltb (LineItem.cantidad li) 1 then
    Some "Path `cantidad` is less than minimum allowed value (1)."
  else None.

Fixpoint productos_validate (l : list LineItem.t) : option string :=
  match l with
  | [] => None
  | li :: rest =>
      match item_validate li with
      | Some msg => Some msg
      | None => productos_validate rest
      end
  end.

Definition ventaSchema_validate (v : Venta.t) : option string :=
  productos_validate (Venta.productos v).

Definition compraSchema_validate (c : Compra.t) : option string :=
  productos_validate (Compra.productos c).

(** POST /api/compras *)
Definition post_compras := post_compras_with compraSchema_validate.

(** The loop of POST /api/ventas ("similar a compras, con resta de stock"). *)
Fixpoint ventas_for (items : list Item.t) (total : Q)
  (productosVendidos : list LineItem.t) : M (Q * list LineItem.t) :=
  match items with
  | [] => ret (total, productosVendidos)
  | item :: rest =>
      producto <- findById (Item.productoId item);;
      match producto with
      | None =>
          return_ (res_status_json 404 (JError "Producto no encontrado"))
      | Some producto =>
          if Qltb (Producto.stock producto) (Item.cantidad item) then
            return_ (res_status_json 400 (JError "Stock insuficiente"))
          else
            let subtotal := Item.precioUnitario item * Item.cantidad item in
            let total := total + subtotal in
            let producto :=
              Producto.set_stock producto
                (Producto.stock producto - Item.cantidad item) in
            save_producto (Item.productoId item) producto;;;
            ventas_for rest total
              (productosVendidos ++
               [{| LineItem.productoId := Item.productoId item;
                   LineItem.codigo := Producto.codigo producto;
                   LineItem.nombre := Producto.nombre producto;
                   LineItem.cantidad := Item.cantidad item;
                   LineItem.precioUnitario := Item.precioUnitario item;
                   LineItem.subtotal := subtotal |}])
      end
  end.

(** POST /api/ventas *)
Definition post_ventas (productos : list Item.t) (cliente : option string)
  : DB -> DB * Response :=
  try_catch
    (acc <- ventas_for productos 0 [];;
     let '(total, productosVendidos) := acc in
     let iva := total * 0.21 in
     let totalConIva := total + iva in
     let nuevaVenta :=
       {| Venta.productos := productosVendidos;
          Venta.total := totalConIva;
          Venta.iva := iva;
          Venta.cliente := or_default cliente "Desconocido" |} in
     save_venta ventaSchema_validate nuevaVenta;;;
     ret (res_json (JVenta nuevaVenta)))
    (fun err => res_status_json 500 (JError (message err))).

End Backend.

(** * Sample data *)

Definition A1 : Producto.t :=
  {| Producto.codigo := "A1"; Producto.nombre := "Yerba";
     Producto.categoria := "almacen"; Producto.stock := 10;
     Producto.precioCosto := 60; Producto.precioVenta := 100;
     Producto.proveedor := "Mayorista"; Producto.fotoUrl := "";
     Producto.fotoId := "" |}.

Definition B2 : Producto.t :=
  {| Producto.codigo := "B2"; Producto.nombre := "Azucar";
     Producto.categoria := "almacen"; Producto.stock := 5;
     Producto.precioCosto := 30; Producto.precioVenta := 50;
     Producto.proveedor := "Mayorista"; Producto.fotoUrl := "";
     Producto.fotoId := "" |}.

Definition db0 : DB :=
  {| Productos := <["a1" := A1]> (<["b2" := B2]> ∅);
     Ventas := []; Compras := [] |}.

Definition item (id : ObjectId) (cantidad precioUnitario : Q) : Item.t :=
  {| Item.productoId := id; Item.cantidad := cantidad;
     Item.precioUnitario := precioUnitario |}.

Definition cloud : Cloudinary :=
  {| upload := fun _ => inr ("https://res.cloudinary.com/foto.png", "foto1");
     destroy := fun _ => None |}.

Definition cuerpo (codigo nombre : string) : Inventario.Body.t :=
  {| Inventario.Body.codigo := codigo; Inventario.Body.nombre := nombre;
     Inventario.Body.categoria := "almacen"; Inventario.Body.stock := Some 4;
     Inventario.Body.precioCosto := 10; Inventario.Body.precioVenta := 20;
     Inventario.Body.proveedor := "Mayorista";
     Inventario.Body.base64Foto := None |}.

(** A Cloudinary account whose calls are rejected, and a product that has a
    photo there. *)
Definition cloud_caido : Cloudinary :=
  {| upload := fun _ =>
       inl {| name := "Error"; code := None; message := "Request Timeout" |};
     destroy := fun _ =>
       Some {| name := "Error"; code := None; message := "Request Timeout" |} |}.

Definition C3 : Producto.t :=
  {| Producto.codigo := "C3"; Producto.nombre := "Harina";
     Producto.categoria := "almacen"; Producto.stock := 8;
     Producto.precioCosto := 20; Producto.precioVenta := 35;
     Producto.proveedor := "Molino";
     Producto.fotoUrl := "https://res.cloudinary.com/foto.png";
     Producto.fotoId := "foto1" |}.

Definition db_foto : DB :=
  {| Productos := <["c3" := C3]> (Productos db0);
     Ventas := []; Compras := [] |}.

(** * [recordTransaction]: the four handlers that record a sale or purchase *)

Inductive Kind := Sale | Purchase.

Inductive Endpoint :=
| InventarioVentas      (* POST /api/ventas of the inventory server *)
| ContabilidadCompras   (* POST /api/compras of src/backend/server.js *)
| BackendCompras        (* POST /api/compras of the unified server *)
| BackendVentas.        (* POST /api/ventas of the unified server *)

Definition kind (e : Endpoint) : Kind :=
  match e with
  | InventarioVentas | BackendVentas => Sale
  | ContabilidadCompras | BackendCompras => Purchase
  end.

Definition recordTransaction (e : Endpoint)
  : list Item.t -> option string -> DB -> DB * Response :=
  match e with
  | InventarioVentas => Inventario.post_ventas
  | ContabilidadCompras => Contabilidad.post_compras
  | BackendCompras => Backend.post_compras
  | BackendVentas => Backend.post_ventas
  end.

(** The item loop of each handler. *)
Definition for_loop (e : Endpoint)
  : list Item.t -> Q -> list LineItem.t -> M (Q * list LineItem.t) :=
  match e with
  | InventarioVentas => Inventario.ventas_for
  | ContabilidadCompras | BackendCompras => compras_for
  | BackendVentas => Backend.ventas_for
  end.

(** The label stored when the caller names no client or supplier. *)
Definition sentinel (e : Endpoint) : string :=
  match e with
  | InventarioVentas => "Mostrador"
  | _ => "Desconocido"
  end.

(** The sale or purchase record of a response body, read uniformly. *)
Module Transaction.
Record t := {
  productos : list LineItem.t;
  total : Q;
  iva : Q;
  counterparty : string
}.
End Transaction.

Definition transaction (j : Json) : option Transaction.t :=
  match j with
  | JVenta v =>
      Some {| Transaction.productos := Venta.productos v;
              Transaction.total := Venta.total v;
              Transaction.iva := Venta.iva v;
              Transaction.counterparty := Venta.cliente v |}
  | JCompra c =>
      Some {| Transaction.productos := Compra.productos c;
              Transaction.total := Compra.total c;
              Transaction.iva := Compra.iva c;
              Transaction.counterparty := Compra.proveedor c |}
  | _ => None
  end.

(** Sum of the subtotals of a list of line items. *)
Definition suma (l : list LineItem.t) : Q :=
  foldr (fun li acc => LineItem.subtotal li + acc) 0 l.

(** ** One loop for the four handlers

    The loops differ in three places: whether stock is checked (and with
    which message), where the unit price comes from, and the sign of the
    stock change.  [generic_for] takes them as a [Policy]; each loop of the
    source is an instance ([for_loop_generic]). *)

Record Policy := {
  verifica_stock : option (Producto.t -> string);
  precio_de_catalogo : bool;
  resta_stock : bool
}.

Definition policy (e : Endpoint) : Policy :=
  match e with
  | InventarioVentas =>
      {| verifica_stock :=
           Some (fun producto =>
                   "Stock insuficiente para " +:+ Producto.nombre producto);
         precio_de_catalogo := true; resta_stock := true |}
  | ContabilidadCompras | BackendCompras =>
      {| verifica_stock := None;
         precio_de_catalogo := false; resta_stock := false |}
  | BackendVentas =>
      {| verifica_stock := Some (fun _ => "Stock insuficiente");
         precio_de_catalogo := false; resta_stock := true |}
  end.

Definition precio (pi : Policy) (it : Item.t) (p : Producto.t) : Q :=
  if precio_de_catalogo pi then Producto.precioVenta p
  else Item.precioUnitario it.

Definition nuevo_stock (pi : Policy) (s cantidad : Q) : Q :=
  if resta_stock pi then s - cantidad else s + cantidad.

Definition resuelto (pi : Policy) (it : Item.t) (p : Producto.t)
  : LineItem.t :=
  {| LineItem.productoId := Item.productoId it;
     LineItem.codigo := Producto.codigo p;
     LineItem.nombre := Producto.nombre p;
     LineItem.cantidad := Item.cantidad it;
     LineItem.precioUnitario := precio pi it p;
     LineItem.subtotal := precio pi it p * Item.cantidad it |}.

Definition con_productos (db : DB) (m : gmap ObjectId Producto.t) : DB :=
  {| Productos := m; Ventas := Ventas db; Compras := Compras db |}.

(** One iteration: the early response, or the database with the stock
    change saved together with the resolved line item. *)
Definition paso (pi : Policy) (it : Item.t) (db : DB)
  : Response + (DB * LineItem.t) :=
  match Productos db !! Item.productoId it with
  | None => inl (res_status_json 404 (JError "Producto no encontrado"))
  | Some p =>
      match verifica_stock pi with
      | Some msg =>
          if Qltb (Producto.stock p) (Item.cantidad it)
          then inl (res_status_json 400 (JError (msg p)))
          else inr (con_productos db
                      (<[Item.productoId it :=
                           Producto.set_stock p
                             (nuevo_stock pi (Producto.stock p) (Item.cantidad it))]>
                         (Productos db)),
                    resuelto pi it p)
      | None =>
          inr (con_productos db
                 (<[Item.productoId it :=
                      Producto.set_stock p
                        (nuevo_stock pi (Producto.stock p) (Item.cantidad it))]>
                    (Productos db)),
               resuelto pi it p)
      end
  end.

Fixpoint generic_for (pi : Policy) (items : list Item.t) (total : Q)
  (acc : list LineItem.t) (db : DB) : DB * Control (Q * list LineItem.t) :=
  match items with
  | [] => (db, Normal (total, acc))
  | it :: rest =>
      match paso pi it db with
      | inl r => (db, Return r)
      | inr (db', li) =>
          generic_for pi rest (total + LineItem.subtotal li) (acc ++ [li]) db'
      end
  end.

(** What the schema of each handler checks on the resolved line items. *)
Definition validar (e : Endpoint) (lis : list LineItem.t) : option string :=
  match e with
  | InventarioVentas | ContabilidadCompras => None
  | BackendCompras | BackendVentas => Backend.productos_validate lis
  end.

(** The record a handler builds from the loop's result. *)
Definition registro (e : Endpoint) (total : Q) (lis : list LineItem.t)
  (cp : option string) : Json :=
  match kind e with
  | Sale =>
      JVenta {| Venta.productos := lis; Venta.total := total + total * 0.21;
                Venta.iva := total * 0.21;
                Venta.cliente := or_default cp (sentinel e) |}
  | Purchase =>
      JCompra {| Compra.productos := lis; Compra.total := total + total * 0.21;
                 Compra.iva := total * 0.21;
                 Compra.proveedor := or_default cp (sentinel e) |}
  end.

(** The database after the record is inserted. *)
Definition persistir (db : DB) (j : Json) : DB :=
  match j with
  | JVenta v =>
      {| Productos := Productos db; Ventas := Ventas db ++ [v];
         Compras := Compras db |}
  | JCompra c =>
      {| Productos := Productos db; Ventas := Ventas db;
         Compras := Compras db ++ [c] |}
  | _ => db
  end.

(** Stock of product [id] after the items of a request were applied to the
    stock [s], in order. *)
Definition stock_tras (pi : Policy) (id : ObjectId) (items : list Item.t)
  (s : Q) : Q :=
  fold_left
    (fun s it =>
       if bool_decide (Item.productoId it = id)
       then nuevo_stock pi s (Item.cantidad it) else s)
    items s.

(** The running [total] of a handler after its loop: the subtotals added
    to 0 one after the other, in the order of the line items. *)
Definition acumulado (l : list LineItem.t) : Q :=
  fold_left (fun total li => total + LineItem.subtotal li) l 0.

(** Products created through [productoSchema] have a code and a name. *)
Definition db_valid (db : DB) : Prop :=
  forall id p, Productos db !! id = Some p ->
    Producto.codigo p <> "" /\ Producto.nombre p <> "".

(** ** POST /api/productos, in steps

    The outcome of the optional upload, the document built from the body,
    and the response of the [catch] block; [post_productos_unfold] states
    the handler in these terms. *)

Definition foto_de (cl : Cloudinary) (body : Inventario.Body.t)
  : JsError + (string * string) :=
  if truthy (Inventario.Body.base64Foto body)
  then upload cl (default "" (Inventario.Body.base64Foto body))
  else inr ("", "").

Definition nuevo_de (body : Inventario.Body.t) (foto : string * string)
  : Producto.t :=
  {| Producto.codigo := Inventario.Body.codigo body;
     Producto.nombre := Inventario.Body.nombre body;
     Producto.categoria := Inventario.Body.categoria body;
     Producto.stock := default 0 (Inventario.Body.stock body);
     Producto.precioCosto := Inventario.Body.precioCosto body;
     Producto.precioVenta := Inventario.Body.precioVenta body;
     Producto.proveedor := Inventario.Body.proveedor body;
     Producto.fotoUrl := fst foto;
     Producto.fotoId := snd foto |}.

Definition catch_productos (err : JsError) : Response :=
  if bool_decide (code err = Some 11000%N)
  then res_status_json 400 (JError "Código ya existe")
  else res_status_json 500 (JError (message err)).

(** The record of a response that is stored in a database: the last sale
    for [JVenta], the last purchase for [JCompra]. *)
Definition persistido (db db' : DB) (j : Json) : Prop :=
  match j with
  | JVenta v => Ventas db' = Ventas db ++ [v] /\ Compras db' = Compras db
  | JCompra c => Compras db' = Compras db ++ [c] /\ Ventas db' = Ventas db
  | _ => False
  end.

(** ** The amounts on binary64 floats

    The arithmetic of the four handlers on the doubles JavaScript computes
    with: [subtotal] is [precio * cantidad], [acumula] is [let total = 0]
    followed by [total += subtotal] for each line, and [iva] and
    [totalConIva] are [total * 0.21] and [total + iva]. *)

Module Binary64.
Definition subtotal (precio cantidad : float) : float :=
  (precio * cantidad)%float.

Definition acumula (subtotales : list float) : float :=
  fold_left (fun total s => (total + s)%float) subtotales 0%float.

Definition iva (total : float) : float := (total * 0.21)%float.

Definition totalConIva (total : float) : float := (total + iva total)%float.
End Binary64.

(** ** Invariants of the product collection *)

(** No product has a negative stock. *)
Definition stock_no_negativo (m : gmap ObjectId Producto.t) : Prop :=
  forall id p, m !! id = Some p -> 0 <= Producto.stock p.

(** The unique index on [codigo]: two documents with the same code are the
    same document. *)
Definition codigos_unicos (m : gmap ObjectId Producto.t) : Prop :=
  forall i j p q,
    m !! i = Some p -> m !! j = Some q ->
    Producto.codigo p = Producto.codigo q -> i = j.

(** [m'] holds no product that [m] does not hold, and the products it holds
    differ from those of [m] in their stock at most. *)
Definition solo_stock (m m' : gmap ObjectId Producto.t) : Prop :=
  forall id p', m' !! id = Some p' ->
    exists p, m !! id = Some p /\ p' = Producto.set_stock p (Producto.stock p').

(** * Proofs *)

(** ** Numbers *)

Lemma Qltb_true (x y : Q) : Qltb x y = true <-> x < y.
Proof.
  unfold Qltb. rewrite negb_true_iff. split.
  - intros H. apply Qnot_le_lt. intros Hle.
    apply Qle_bool_iff in Hle. congruence.
  - intros H. destruct (Qle_bool y x) eqn:E; [|reflexivity].
    apply Qle_bool_iff in E. exfalso. apply (Qlt_not_le _ _ H E).
Qed.

Lemma Qltb_false (x y : Q) : Qltb x y = false <-> y <= x.
Proof.
  unfold Qltb. rewrite negb_false_iff. apply Qle_bool_iff.
Qed.

(** ** The loops of the source are instances of [generic_for] *)

Lemma for_loop_generic (e : Endpoint) (items : list Item.t) :
  forall total acc db,
    for_loop e items total acc db = generic_for (policy e) items total acc db.
Proof.
  induction items as [|it rest IH]; intros total acc db.
  - destruct e; reflexivity.
  - destruct e; simpl; unfold bind, findById, paso; simpl;
      destruct (Productos db !! Item.productoId it) as [p|]; simpl; try reflexivity;
      try (destruct (Qltb (Producto.stock p) (Item.cantidad it)); simpl;
           try reflexivity);
      apply IH.
Qed.

(** Each handler is its loop followed by validation and the insert. *)
Lemma recordTransaction_unfold (e : Endpoint) (items : list Item.t)
  (cp : option string) (db : DB) :
  recordTransaction e items cp db =
  match generic_for (policy e) items 0 [] db with
  | (db1, Normal (total, lis)) =>
      match validar e lis with
      | Some msg => (db1, res_status_json 500 (JError msg))
      | None =>
          (persistir db1 (registro e total lis cp),
           res_json (registro e total lis cp))
      end
  | (db1, Return r) => (db1, r)
  | (db1, Throw err) => (db1, res_status_json 500 (JError (message err)))
  end.
Proof.
  rewrite <- for_loop_generic.
  destruct e; simpl;
    unfold Inventario.post_ventas, Contabilidad.post_compras,
      Backend.post_compras, Backend.post_ventas, post_compras_with,
      try_catch, bind.
  - destruct (Inventario.ventas_for items 0 [] db) as [db1 [[t l]|r|err]];
      reflexivity.
  - destruct (compras_for items 0 [] db) as [db1 [[t l]|r|err]];
      reflexivity.
  - destruct (compras_for items 0 [] db) as [db1 [[t l]|r|err]];
      try reflexivity.
    unfold save_compra, Backend.compraSchema_validate; simpl.
    destruct (Backend.productos_validate l); reflexivity.
  - destruct (Backend.ventas_for items 0 [] db) as [db1 [[t l]|r|err]];
      try reflexivity.
    unfold save_venta, Backend.ventaSchema_validate; simpl.
    destruct (Backend.productos_validate l); reflexivity.
Qed.

(** ** The loop, step by step *)

Lemma resuelto_set_stock (pi : Policy) (it : Item.t) (p : Producto.t) (s : Q) :
  resuelto pi it (Producto.set_stock p s) = resuelto pi it p.
Proof. reflexivity. Qed.

Lemma set_stock_id (p : Producto.t) : Producto.set_stock p (Producto.stock p) = p.
Proof. destruct p; reflexivity. Qed.

(** A step that goes on found the product, passed the stock check when there
    is one, saved the new stock and resolved the item from that product. *)
Lemma paso_inr (pi : Policy) (it : Item.t) (db db' : DB) (li : LineItem.t) :
  paso pi it db = inr (db', li) ->
  exists p,
    Productos db !! Item.productoId it = Some p
    /\ li = resuelto pi it p
    /\ db' = con_productos db
               (<[Item.productoId it :=
                    Producto.set_stock p
                      (nuevo_stock pi (Producto.stock p) (Item.cantidad it))]>
                  (Productos db))
    /\ (is_Some (verifica_stock pi) -> Item.cantidad it <= Producto.stock p).
Proof.
  unfold paso. intros H.
  destruct (Productos db !! Item.productoId it) as [p|]; [|discriminate].
  exists p. destruct (verifica_stock pi) as [msg|].
  - destruct (Qltb (Producto.stock p) (Item.cantidad it)) eqn:E; [discriminate|].
    inversion H; subst. repeat split; try reflexivity.
    intros _. by apply Qltb_false.
  - inversion H; subst. repeat split; try reflexivity.
    intros [? ?]; discriminate.
Qed.

(** A step that answers early: the product is missing (404) or, in a
    handler that checks stock, there is less stock than asked (400). *)
Lemma paso_inl (pi : Policy) (it : Item.t) (db : DB) (r : Response) :
  paso pi it db = inl r ->
  (Productos db !! Item.productoId it = None
   /\ r = res_status_json 404 (JError "Producto no encontrado"))
  \/ (exists p msg,
        Productos db !! Item.productoId it = Some p
        /\ verifica_stock pi = Some msg
        /\ Producto.stock p < Item.cantidad it
        /\ r = res_status_json 400 (JError (msg p))).
Proof.
  unfold paso. intros H.
  destruct (Productos db !! Item.productoId it) as [p|].
  - right. destruct (verifica_stock pi) as [msg|]; [|discriminate].
    destruct (Qltb (Producto.stock p) (Item.cantidad it)) eqn:E; [|discriminate].
    exists p, msg. inversion H; subst. repeat split; try reflexivity.
    by apply Qltb_true.
  - left. inversion H; subst. split; reflexivity.
Qed.

Lemma paso_missing (pi : Policy) (it : Item.t) (db : DB) :
  Productos db !! Item.productoId it = None ->
  paso pi it db = inl (res_status_json 404 (JError "Producto no encontrado")).
Proof. unfold paso. intros ->. reflexivity. Qed.

Lemma paso_sin_stock (pi : Policy) (it : Item.t) (db : DB) (p : Producto.t)
  (msg : Producto.t -> string) :
  Productos db !! Item.productoId it = Some p ->
  verifica_stock pi = Some msg ->
  Producto.stock p < Item.cantidad it ->
  paso pi it db = inl (res_status_json 400 (JError (msg p))).
Proof.
  unfold paso. intros -> -> H. apply Qltb_true in H. rewrite H. reflexivity.
Qed.

(** The loop never throws. *)
Lemma generic_for_no_throw (pi : Policy) (items : list Item.t) :
  forall total acc db db' err,
    generic_for pi items total acc db <> (db', Throw err).
Proof.
  induction items as [|it rest IH]; intros total acc db db' err; simpl.
  - discriminate.
  - destruct (paso pi it db) as [r|[db1 li]]; [discriminate|apply IH].
Qed.

(** Running the loop on [pre ++ post] is running it on [pre] and, when that
    goes through, on [post] from where [pre] left off. *)
Lemma generic_for_app (pi : Policy) (pre post : list Item.t) :
  forall total acc db,
    generic_for pi (pre ++ post) total acc db =
    match generic_for pi pre total acc db with
    | (db1, Normal (t1, a1)) => generic_for pi post t1 a1 db1
    | other => other
    end.
Proof.
  induction pre as [|it rest IH]; intros total acc db; simpl.
  - reflexivity.
  - destruct (paso pi it db) as [r|[db1 li]]; [reflexivity|apply IH].
Qed.

(** An early response comes from the first item whose step answers, after
    the items before it went through. *)
Lemma generic_for_return (pi : Policy) (items : list Item.t) :
  forall total acc db db' r,
    generic_for pi items total acc db = (db', Return r) ->
    exists pre it post t1 a1,
      items = pre ++ it :: post
      /\ generic_for pi pre total acc db = (db', Normal (t1, a1))
      /\ paso pi it db' = inl r.
Proof.
  induction items as [|it rest IH]; intros total acc db db' r; simpl.
  - discriminate.
  - destruct (paso pi it db) as [r0|[db1 li]] eqn:E.
    + intros H; inversion H; subst.
      exists [], it, rest, total, acc. auto.
    + intros H. apply IH in H as (pre & it' & post & t1 & a1 & -> & Hpre & Hit).
      exists (it :: pre), it', post, t1, a1. simpl. rewrite E. auto.
Qed.

Lemma stock_tras_cons (pi : Policy) (id : ObjectId) (it : Item.t)
  (rest : list Item.t) (s : Q) :
  stock_tras pi id (it :: rest) s =
  stock_tras pi id rest
    (if bool_decide (Item.productoId it = id)
     then nuevo_stock pi s (Item.cantidad it) else s).
Proof. reflexivity. Qed.

Lemma suma_app (l1 l2 : list LineItem.t) : suma (l1 ++ l2) == suma l1 + suma l2.
Proof.
  induction l1 as [|li l1 IH]; simpl.
  - ring.
  - rewrite IH. ring.
Qed.

(** What a loop that went through leaves behind: one resolved line item per
    requested item, in order, each built from the product as the database
    held it before the call; the total grown by their subtotals; every
    product's stock moved by the items that name it and nothing else
    touched. *)
Lemma generic_for_normal (pi : Policy) (items : list Item.t) :
  forall total acc db db' total' acc',
    generic_for pi items total acc db = (db', Normal (total', acc')) ->
    exists lis,
      acc' = acc ++ lis
      /\ total' == total + suma lis
      /\ Forall2 (fun it li => exists p,
                    Productos db !! Item.productoId it = Some p
                    /\ li = resuelto pi it p) items lis
      /\ (forall id,
            Productos db' !! id =
            (fun p => Producto.set_stock p
                        (stock_tras pi id items (Producto.stock p)))
              <$> Productos db !! id)
      /\ Ventas db' = Ventas db /\ Compras db' = Compras db.
Proof.
  induction items as [|it rest IH]; intros total acc db db' total' acc'; simpl.
  - intros H; inversion H; subst. exists []. rewrite app_nil_r.
    repeat split; try constructor.
    + simpl. ring.
    + intros id. destruct (Productos db' !! id) as [p|]; simpl; [|reflexivity].
      by rewrite set_stock_id.
  - destruct (paso pi it db) as [r|[db1 li]] eqn:E; [discriminate|].
    intros H. apply IH in H as (lis & -> & Ht & Hres & Hst & Hv & Hc).
    apply paso_inr in E as (p & Hp & -> & -> & _).
    exists (resuelto pi it p :: lis). rewrite <- app_assoc. simpl in *.
    repeat split; try assumption.
    + rewrite Ht. ring.
    + constructor; [by exists p|].
      eapply Forall2_impl; [exact Hres|].
      intros it' li' (p' & Hp' & ->). simpl in Hp'.
      destruct (decide (Item.productoId it = Item.productoId it')) as [Heq|Hne].
      * rewrite <- Heq, lookup_insert_eq in Hp'. inversion Hp'; subst.
        exists p. split; [by rewrite <- Heq|apply resuelto_set_stock].
      * rewrite lookup_insert_ne in Hp' by assumption. by exists p'.
    + intros id. rewrite Hst.
      destruct (decide (Item.productoId it = id)) as [Heq|Hne].
      * subst id. rewrite lookup_insert_eq, Hp. simpl.
        rewrite bool_decide_eq_true_2 by reflexivity. reflexivity.
      * rewrite lookup_insert_ne by assumption.
        rewrite bool_decide_eq_false_2 by assumption. reflexivity.
Qed.

(** The running total after a loop that went through is the one it
    started from with the subtotals of the new line items added to it, one
    after the other. *)
Lemma generic_for_acumulado (pi : Policy) (items : list Item.t) :
  forall total acc db db' total' acc',
    generic_for pi items total acc db = (db', Normal (total', acc')) ->
    exists lis,
      acc' = acc ++ lis
      /\ total' = fold_left (fun t li => t + LineItem.subtotal li) lis total.
Proof.
  induction items as [|it rest IH]; intros total acc db db' total' acc'; simpl.
  - intros H; inversion H; subst. exists []. by rewrite app_nil_r.
  - destruct (paso pi it db) as [r|[db1 li]]; [discriminate|].
    intros H. apply IH in H as (lis & -> & ->).
    exists (li :: lis). by rewrite <- app_assoc.
Qed.

(** Adding quantities that are not negative never lowers a stock. *)
Lemma stock_tras_no_baja (pi : Policy) (id : ObjectId) (items : list Item.t) :
  resta_stock pi = false ->
  Forall (fun it => 0 <= Item.cantidad it) items ->
  forall s, s <= stock_tras pi id items s.
Proof.
  intros Hr. induction 1 as [|it rest Hq _ IH]; intros s.
  - simpl. lra.
  - rewrite stock_tras_cons.
    destruct (bool_decide (Item.productoId it = id)); [|apply IH].
    eapply Qle_trans; [|apply IH]. unfold nuevo_stock. rewrite Hr. lra.
Qed.

(** A loop without stock check goes through when every item names an
    existing product. *)
Lemma generic_for_sin_control (pi : Policy) (items : list Item.t) :
  verifica_stock pi = None ->
  forall total acc db,
    Forall (fun it => is_Some (Productos db !! Item.productoId it)) items ->
    exists db' total' acc',
      generic_for pi items total acc db = (db', Normal (total', acc')).
Proof.
  intros Hpi. induction items as [|it rest IH]; intros total acc db Hall; simpl.
  - eauto.
  - inversion Hall as [|? ? [p Hp] Hrest]; subst.
    unfold paso. rewrite Hp, Hpi. apply IH.
    eapply Forall_impl; [exact Hrest|]. simpl. intros it' [p' Hp'].
    destruct (decide (Item.productoId it = Item.productoId it')) as [Heq|Hne].
    + rewrite <- Heq, lookup_insert_eq. eauto.
    + rewrite lookup_insert_ne by assumption. eauto.
Qed.

(** ** The handlers *)

Lemma for_loop_normal_generic (e : Endpoint) (items : list Item.t)
  (total : Q) (acc : list LineItem.t) (db db1 : DB) (t1 : Q)
  (a1 : list LineItem.t) :
  for_loop e items total acc db = (db1, Normal (t1, a1)) ->
  generic_for (policy e) items total acc db = (db1, Normal (t1, a1)).
Proof. by rewrite for_loop_generic. Qed.

Lemma transaction_registro (e : Endpoint) (total : Q) (lis : list LineItem.t)
  (cp : option string) :
  transaction (registro e total lis cp) =
  Some {| Transaction.productos := lis;
          Transaction.total := total + total * 0.21;
          Transaction.iva := total * 0.21;
          Transaction.counterparty := or_default cp (sentinel e) |}.
Proof. destruct e; reflexivity. Qed.

Lemma paso_inl_status (pi : Policy) (it : Item.t) (db : DB) (r : Response) :
  paso pi it db = inl r ->
  (status r = 404%nat \/ status r = 400%nat) /\ exists msg, body r = JError msg.
Proof.
  intros H. apply paso_inl in H as [[_ ->]|(p & msg & _ & _ & _ & ->)]; simpl; eauto.
Qed.

(** A 200 answer means the loop went through, the record passed the schema
    and was inserted. *)
Lemma recordTransaction_200 (e : Endpoint) (items : list Item.t)
  (cp : option string) (db db' : DB) (r : Response) :
  recordTransaction e items cp db = (db', r) -> status r = 200%nat ->
  exists db1 total lis,
    generic_for (policy e) items 0 [] db = (db1, Normal (total, lis))
    /\ validar e lis = None
    /\ r = res_json (registro e total lis cp)
    /\ db' = persistir db1 (registro e total lis cp).
Proof.
  rewrite recordTransaction_unfold.
  destruct (generic_for (policy e) items 0 [] db) as [db1 [[t l]|r0|err]] eqn:E.
  - destruct (validar e l) eqn:V; intros H; inversion H; subst; simpl.
    + discriminate.
    + intros _. exists db1, t, l. auto.
  - intros H; inversion H; subst. intros Hs.
    apply generic_for_return in E as (pre & it & post & t1 & a1 & _ & _ & Hit).
    apply paso_inl_status in Hit as [[H4|H4] _]; congruence.
  - by apply generic_for_no_throw in E.
Qed.

Lemma persistir_registro (e : Endpoint) (db : DB) (total : Q)
  (lis : list LineItem.t) (cp : option string) :
  Productos (persistir db (registro e total lis cp)) = Productos db
  /\ match registro e total lis cp with
     | JVenta v =>
         kind e = Sale
         /\ Ventas (persistir db (registro e total lis cp)) = Ventas db ++ [v]
         /\ Compras (persistir db (registro e total lis cp)) = Compras db
     | JCompra c =>
         kind e = Purchase
         /\ Ventas (persistir db (registro e total lis cp)) = Ventas db
         /\ Compras (persistir db (registro e total lis cp)) = Compras db ++ [c]
     | _ => False
     end.
Proof. destruct e; simpl; auto. Qed.

Lemma persistido_registro (e : Endpoint) (db db1 : DB) (total : Q)
  (lis : list LineItem.t) (cp : option string) :
  Ventas db1 = Ventas db -> Compras db1 = Compras db ->
  persistido db (persistir db1 (registro e total lis cp))
    (registro e total lis cp).
Proof. intros Hv Hc. destruct e; simpl; rewrite Hv, Hc; auto. Qed.

(** * The claims *)

(** C10. A call with an empty item list succeeds on each of the four
    handlers: no product is touched, and the record that is stored and
    returned has no line items, [iva] and [total] equal to 0, and the
    caller's label or, when the caller gives none, the handler's sentinel
    ('Mostrador' for the inventory server's sales, 'Desconocido'
    elsewhere). *)
Theorem empty_request_is_recorded (e : Endpoint) (cp : option string) (db : DB) :
  exists db' j t,
    recordTransaction e [] cp db = (db', res_json j)
    /\ transaction j = Some t
    /\ persistido db db' j
    /\ Productos db' = Productos db
    /\ Transaction.productos t = []
    /\ Transaction.iva t == 0
    /\ Transaction.total t == 0
    /\ Transaction.counterparty t = or_default cp (sentinel e)
    /\ or_default None (sentinel e) = sentinel e
    /\ sentinel InventarioVentas = "Mostrador"
    /\ sentinel ContabilidadCompras = "Desconocido"
    /\ sentinel BackendCompras = "Desconocido"
    /\ sentinel BackendVentas = "Desconocido".
Proof.
  exists (persistir db (registro e 0 [] cp)), (registro e 0 [] cp).
  eexists. rewrite recordTransaction_unfold. simpl.
  assert (validar e [] = None) as -> by (destruct e; reflexivity).
  split; [reflexivity|]. split; [apply transaction_registro|].
  split; [by apply persistido_registro|].
  split; [apply persistir_registro|]. simpl.
  repeat split; reflexivity.
Qed.

(** What a 200 answer of [recordTransaction] carries, in one place: the
    loop went through to [db1], the record is the one built from the loop's
    total and line items, it is stored, and each line item is resolved from
    the product as the database held it before the call. *)
Lemma recordTransaction_200_inv (e : Endpoint) (items : list Item.t)
  (cp : option string) (db db' : DB) (r : Response) :
  recordTransaction e items cp db = (db', r) -> status r = 200%nat ->
  exists db1 total lis,
    generic_for (policy e) items 0 [] db = (db1, Normal (total, lis))
    /\ validar e lis = None
    /\ body r = registro e total lis cp
    /\ db' = persistir db1 (registro e total lis cp)
    /\ persistido db db' (body r)
    /\ total == suma lis
    /\ Forall2 (fun it li => exists p,
                  Productos db !! Item.productoId it = Some p
                  /\ li = resuelto (policy e) it p) items lis.
Proof.
  intros H Hs.
  apply recordTransaction_200 in H as (db1 & total & lis & Hloop & Hval & -> & ->);
    [|assumption].
  pose proof (generic_for_normal _ _ _ _ _ _ _ _ Hloop)
    as (lis' & Hl & Ht & Hres & _ & Hv & Hc).
  simpl in Hl. subst lis'.
  exists db1, total, lis. repeat split; try assumption.
  - by apply persistido_registro.
  - rewrite Ht. ring.
Qed.

(** C2 (amended). Whenever [recordTransaction] succeeds, on any of the
    four handlers, the record it returns is the one it stored; each of its
    line items carries the quantity of the requested item and the resolved
    unit price, and its subtotal is that unit price times that quantity;
    the running total is the subtotals added to 0 in order, [iva] is that
    total times 0.21 and [total] is that total plus [iva].  In particular a
    record made of one line of 3 units at unit price 100 has iva = 63 and
    total = 363, on exact numbers and on binary64 floats alike. *)
Theorem totals_of_recorded_transaction (e : Endpoint) (items : list Item.t)
  (cp : option string) (db db' : DB) (r : Response) :
  recordTransaction e items cp db = (db', r) -> status r = 200%nat ->
  exists t,
    transaction (body r) = Some t
    /\ persistido db db' (body r)
    /\ Forall2
         (fun it li => exists p,
            Productos db !! Item.productoId it = Some p
            /\ LineItem.cantidad li = Item.cantidad it
            /\ LineItem.precioUnitario li =
               match e with
               | InventarioVentas => Producto.precioVenta p
               | ContabilidadCompras | BackendCompras | BackendVentas =>
                   Item.precioUnitario it
               end
            /\ LineItem.subtotal li =
               LineItem.precioUnitario li * LineItem.cantidad li)
         items (Transaction.productos t)
    /\ Transaction.iva t = acumulado (Transaction.productos t) * 0.21
    /\ Transaction.total t =
       acumulado (Transaction.productos t) + Transaction.iva t
    /\ (forall li,
          Transaction.productos t = [li] ->
          LineItem.cantidad li = 3 -> LineItem.precioUnitario li = 100 ->
          Transaction.iva t == 63 /\ Transaction.total t == 363)
    /\ Binary64.iva (Binary64.acumula [Binary64.subtotal 100 3]) = 63%float
    /\ Binary64.totalConIva (Binary64.acumula [Binary64.subtotal 100 3])
       = 363%float.
Proof.
  intros H Hs.
  apply recordTransaction_200_inv in H
    as (db1 & total & lis & Hloop & _ & Hb & _ & Hper & _ & Hres); [|assumption].
  apply generic_for_acumulado in Hloop as (lis' & Hl & Ht).
  simpl in Hl. subst lis'. change (total = acumulado lis) in Ht.
  eexists. rewrite Hb at 1. split; [apply transaction_registro|].
  cbn [Transaction.productos Transaction.iva Transaction.total].
  assert (Hlines : Forall2
            (fun it li => exists p,
               Productos db !! Item.productoId it = Some p
               /\ LineItem.cantidad li = Item.cantidad it
               /\ LineItem.precioUnitario li =
                  match e with
                  | InventarioVentas => Producto.precioVenta p
                  | ContabilidadCompras | BackendCompras | BackendVentas =>
                      Item.precioUnitario it
                  end
               /\ LineItem.subtotal li =
                  LineItem.precioUnitario li * LineItem.cantidad li)
            items lis).
  { eapply Forall2_impl; [exact Hres|].
    intros it li (p & Hp & ->). exists p. destruct e; simpl; auto. }
  split; [exact Hper|]. split; [exact Hlines|].
  split; [by rewrite Ht|]. split; [by rewrite Ht|].
  split; [|split; reflexivity].
  intros li Hli Hq Hpr. subst lis.
  inversion Hlines as [|? ? ? ? (p & _ & _ & _ & Hsub) _]; subst.
  rewrite Hq, Hpr in Hsub. unfold acumulado. cbn [fold_left].
  rewrite Hsub. split; reflexivity.
Qed.

Lemma totals_of_recorded_transaction_witness :
  exists t,
    transaction (body (snd (Inventario.post_ventas [item "a1" 3 0] None db0)))
      = Some t
    /\ Transaction.iva t == 63 /\ Transaction.total t == 363.
Proof.
  destruct (totals_of_recorded_transaction InventarioVentas [item "a1" 3 0]
              None db0 _ _ eq_refl eq_refl)
    as (t & Ht & _ & _ & _ & _ & Hex & _).
  exists t. split; [exact Ht|].
  vm_compute in Ht. inversion Ht; subst t.
  apply (Hex _ eq_refl); reflexivity.
Defined.

(** C2, as stated, fails on binary64 floats: for a single line of subtotal
    7 the handlers compute total + total * 0.21 = 8.47, while 7 * 1.21 is
    8.469999999999999. *)
Lemma total_times_1_21_counterexample :
  Binary64.acumula [Binary64.subtotal 7 1] = 7%float
  /\ Binary64.totalConIva (Binary64.acumula [Binary64.subtotal 7 1])
     = 8.47%float
  /\ (Binary64.acumula [Binary64.subtotal 7 1] * 1.21)%float
     = 8.469999999999999%float
  /\ PrimFloat.eqb
       (Binary64.totalConIva (Binary64.acumula [Binary64.subtotal 7 1]))
       (Binary64.acumula [Binary64.subtotal 7 1] * 1.21)%float = false.
Proof. repeat split; reflexivity. Qed.

(** A loop that prices from the catalogue does not read the caller's
    price. *)
Lemma generic_for_precio_ignorado (pi : Policy) (items items' : list Item.t) :
  precio_de_catalogo pi = true ->
  Forall2 (fun it it' => Item.productoId it' = Item.productoId it
                         /\ Item.cantidad it' = Item.cantidad it) items items' ->
  forall total acc db,
    generic_for pi items' total acc db = generic_for pi items total acc db.
Proof.
  intros Hpi Hall. induction Hall as [|it it' items items' [Hid Hq] _ IH];
    intros total acc db; simpl; [reflexivity|].
  assert (paso pi it' db = paso pi it db) as ->.
  { unfold paso, resuelto, precio. by rewrite Hid, Hq, Hpi. }
  destruct (paso pi it db) as [r|[db1 li]]; [reflexivity|apply IH].
Qed.

(** C1 (amended). The inventory server's sale handler takes the unit price
    of every line item from the referenced product's [precioVenta] as the
    database holds it when the call is made, and its result does not depend
    on any price the caller sends.  The purchase handlers, and the unified
    server's sale handler, store the caller-supplied unit price; in every
    case the subtotal is that unit price times the quantity. *)
Theorem unit_price_of_line_items (e : Endpoint) (items : list Item.t)
  (cp : option string) (db db' : DB) (r : Response) :
  recordTransaction e items cp db = (db', r) -> status r = 200%nat ->
  exists t,
    transaction (body r) = Some t
    /\ Forall2
         (fun it li => exists p,
            Productos db !! Item.productoId it = Some p
            /\ LineItem.productoId li = Item.productoId it
            /\ LineItem.cantidad li = Item.cantidad it
            /\ LineItem.precioUnitario li =
               match e with
               | InventarioVentas => Producto.precioVenta p
               | ContabilidadCompras | BackendCompras | BackendVentas =>
                   Item.precioUnitario it
               end
            /\ LineItem.subtotal li =
               LineItem.precioUnitario li * Item.cantidad it)
         items (Transaction.productos t)
    /\ (forall items',
          Forall2 (fun it it' => Item.productoId it' = Item.productoId it
                                 /\ Item.cantidad it' = Item.cantidad it)
            items items' ->
          recordTransaction InventarioVentas items' cp db =
          recordTransaction InventarioVentas items cp db).
Proof.
  intros H Hs.
  apply recordTransaction_200_inv in H
    as (db1 & total & lis & _ & _ & Hb & _ & _ & _ & Hres); [|assumption].
  eexists. rewrite Hb at 1. split; [apply transaction_registro|].
  split.
  - simpl. eapply Forall2_impl; [exact Hres|].
    intros it li (p & Hp & ->). exists p.
    destruct e; simpl; auto.
  - intros items' Hall. rewrite !recordTransaction_unfold.
    by rewrite (generic_for_precio_ignorado _ items items').
Qed.

Lemma unit_price_of_line_items_witness :
  exists t,
    transaction
      (body (snd (recordTransaction InventarioVentas [item "a1" 3 5] None db0)))
      = Some t
    /\ Forall2
         (fun it li => exists p,
            Productos db0 !! Item.productoId it = Some p
            /\ LineItem.productoId li = Item.productoId it
            /\ LineItem.cantidad li = Item.cantidad it
            /\ LineItem.precioUnitario li = Producto.precioVenta p
            /\ LineItem.subtotal li =
               LineItem.precioUnitario li * Item.cantidad it)
         [item "a1" 3 5] (Transaction.productos t).
Proof.
  destruct (unit_price_of_line_items InventarioVentas [item "a1" 3 5]
              None db0 _ _ eq_refl eq_refl) as (t & Ht & Hall & _).
  exists t. split; [exact Ht|exact Hall].
Defined.

(** C1, as stated, fails on the unified server's sale handler: a sale of
    product "a1" (catalogue price 100) sent with unit price 5 is recorded at
    unit price 5 and subtotal 15. *)
Lemma sale_price_counterexample :
  exists db' v li,
    recordTransaction BackendVentas [item "a1" 3 5] None db0
      = (db', res_json (JVenta v))
    /\ Venta.productos v = [li]
    /\ Productos db0 !! "a1" = Some A1
    /\ Producto.precioVenta A1 = 100
    /\ LineItem.precioUnitario li = 5
    /\ LineItem.subtotal li == 15
    /\ ~ LineItem.precioUnitario li == Producto.precioVenta A1.
Proof.
  do 3 eexists. split; [vm_compute; reflexivity|]. simpl.
  repeat split; try reflexivity. intros H; discriminate H.
Qed.

Lemma verifica_stock_sale (e : Endpoint) :
  kind e = Sale ->
  exists msg,
    verifica_stock (policy e) = Some msg
    /\ forall p, String.prefix "Stock insuficiente" (msg p) = true.
Proof.
  destruct e; try discriminate; intros _; simpl; eexists; split;
    reflexivity || (intros p; reflexivity).
Qed.

Lemma verifica_stock_purchase (e : Endpoint) :
  kind e = Purchase -> verifica_stock (policy e) = None.
Proof. destruct e; try discriminate; reflexivity. Qed.

(** The answer of a call whose loop stops at [it] after [pre] went
    through. *)
Lemma recordTransaction_stops (e : Endpoint) (pre post : list Item.t)
  (it : Item.t) (cp : option string) (db db1 : DB) (t1 : Q)
  (a1 : list LineItem.t) (r : Response) :
  generic_for (policy e) pre 0 [] db = (db1, Normal (t1, a1)) ->
  paso (policy e) it db1 = inl r ->
  recordTransaction e (pre ++ it :: post) cp db = (db1, r).
Proof.
  intros Hpre Hit.
  rewrite recordTransaction_unfold, generic_for_app, Hpre. simpl.
  by rewrite Hit.
Qed.

(** C3 (amended). In a Sale, when the loop reaches an item (every earlier
    item having found its product with enough stock) whose quantity exceeds
    the stock the referenced product has at that moment, the call fails
    with InsufficientStock: status 400 and a message that starts with
    'Stock insuficiente'.  The database is left as the earlier items left
    it: that product keeps the stock it had, no sale is recorded, and when
    the failing item is the first one the whole database is exactly as
    before the call. *)
Theorem sale_rejects_insufficient_stock (e : Endpoint)
  (pre post : list Item.t) (it : Item.t) (cp : option string)
  (db db1 : DB) (t1 : Q) (a1 : list LineItem.t) (p : Producto.t) :
  kind e = Sale ->
  for_loop e pre 0 [] db = (db1, Normal (t1, a1)) ->
  Productos db1 !! Item.productoId it = Some p ->
  Producto.stock p < Item.cantidad it ->
  exists msg,
    recordTransaction e (pre ++ it :: post) cp db
      = (db1, res_status_json 400 (JError msg))
    /\ String.prefix "Stock insuficiente" msg = true
    /\ Productos (fst (recordTransaction e (pre ++ it :: post) cp db))
         !! Item.productoId it = Some p
    /\ Ventas db1 = Ventas db /\ Compras db1 = Compras db
    /\ (pre = [] -> db1 = db).
Proof.
  intros Hk Hpre Hp Hlt.
  apply for_loop_normal_generic in Hpre.
  destruct (verifica_stock_sale e Hk) as (msg & Hmsg & Hpref).
  pose proof (paso_sin_stock _ _ _ _ _ Hp Hmsg Hlt) as Hit.
  pose proof (recordTransaction_stops e pre post it cp _ _ _ _ _ Hpre Hit) as Hr.
  exists (msg p). rewrite Hr. simpl.
  pose proof (generic_for_normal _ _ _ _ _ _ _ _ Hpre)
    as (_ & _ & _ & _ & _ & Hv & Hc).
  repeat split; auto.
  intros ->. simpl in Hpre. congruence.
Qed.

Lemma sale_rejects_insufficient_stock_witness :
  exists msg,
    recordTransaction InventarioVentas ([] ++ item "a1" 20 0 :: []) None db0
      = (db0, res_status_json 400 (JError msg))
    /\ String.prefix "Stock insuficiente" msg = true
    /\ Productos
         (fst (recordTransaction InventarioVentas
                 ([] ++ item "a1" 20 0 :: []) None db0))
         !! "a1" = Some A1
    /\ Producto.stock A1 = 10.
Proof.
  destruct (sale_rejects_insufficient_stock InventarioVentas [] []
              (item "a1" 20 0) None db0 db0 0 [] A1
              eq_refl eq_refl eq_refl eq_refl)
    as (msg & Hr & Hpref & Hp & _).
  exists msg. repeat split; assumption || reflexivity.
Defined.

(** C3, as stated, fails when an earlier item of the request names a
    missing product: the request contains an item asking 20 of "a1"
    (stock 10), yet the call fails with NotFound (404), not with
    InsufficientStock. *)
Lemma insufficient_stock_counterexample :
  Productos db0 !! "a1" = Some A1
  /\ Producto.stock A1 < Item.cantidad (item "a1" 20 0)
  /\ recordTransaction InventarioVentas [item "zz" 1 0; item "a1" 20 0] None db0
     = (db0, res_status_json 404 (JError "Producto no encontrado"))
  /\ recordTransaction BackendVentas [item "zz" 1 0; item "a1" 20 0] None db0
     = (db0, res_status_json 404 (JError "Producto no encontrado")).
Proof. repeat split; reflexivity. Qed.

(** C4 (amended). When an item of a request names a product that does not
    exist, every item before it names an existing one, and (for a Sale)
    the items before it went through the stock check, the call aborts with
    NotFound (404) at that item: no sale or purchase is recorded, the stock
    changes of the earlier items stay in the database, and neither the
    failing item nor the items after it change any stock. *)
Theorem missing_product_aborts (e : Endpoint) (pre post : list Item.t)
  (it : Item.t) (cp : option string) (db : DB) :
  Forall (fun i => is_Some (Productos db !! Item.productoId i)) pre ->
  Productos db !! Item.productoId it = None ->
  (kind e = Purchase
   \/ exists db1 t1 a1, for_loop e pre 0 [] db = (db1, Normal (t1, a1))) ->
  exists db1,
    recordTransaction e (pre ++ it :: post) cp db
      = (db1, res_status_json 404 (JError "Producto no encontrado"))
    /\ Ventas db1 = Ventas db /\ Compras db1 = Compras db
    /\ forall id,
         Productos db1 !! id =
         (fun p => Producto.set_stock p
                     (stock_tras (policy e) id pre (Producto.stock p)))
           <$> Productos db !! id.
Proof.
  intros Hall Hnone Hpre.
  assert (exists db1 t1 a1,
             generic_for (policy e) pre 0 [] db = (db1, Normal (t1, a1)))
    as (db1 & t1 & a1 & Hloop).
  { destruct Hpre as [Hk|(db1 & t1 & a1 & H)].
    - apply generic_for_sin_control; [by apply verifica_stock_purchase|exact Hall].
    - apply for_loop_normal_generic in H. eauto. }
  pose proof (generic_for_normal _ _ _ _ _ _ _ _ Hloop)
    as (_ & _ & _ & _ & Hst & Hv & Hc).
  exists db1. repeat split; try assumption.
  eapply recordTransaction_stops; [exact Hloop|].
  apply paso_missing. by rewrite Hst, Hnone.
Qed.

Lemma missing_product_aborts_witness :
  exists db1,
    recordTransaction ContabilidadCompras
      ([item "a1" 2 60] ++ item "zz" 1 1 :: [item "b2" 4 30]) None db0
      = (db1, res_status_json 404 (JError "Producto no encontrado"))
    /\ Compras db1 = []
    /\ Producto.stock <$> Productos db1 !! "a1" = Some (10 + 2)
    /\ Producto.stock <$> Productos db1 !! "b2" = Some 5.
Proof.
  destruct (missing_product_aborts ContabilidadCompras [item "a1" 2 60]
              [item "b2" 4 30] (item "zz" 1 1) None db0) as (db1 & Hr & _ & Hc & Hst).
  - repeat constructor; vm_compute; eauto.
  - reflexivity.
  - left; reflexivity.
  - exists db1. split; [exact Hr|]. split; [exact Hc|].
    rewrite !Hst. split; reflexivity.
Defined.

(** C4, as stated, fails on a Sale whose earlier item asks more than the
    stock: the request names the missing product "zz", yet the call fails
    with InsufficientStock (400) at the first item. *)
Lemma missing_product_counterexample :
  Productos db0 !! "zz" = None
  /\ recordTransaction InventarioVentas [item "a1" 20 0; item "zz" 1 0] None db0
     = (db0, res_status_json 400 (JError "Stock insuficiente para Yerba"))
  /\ recordTransaction BackendVentas [item "a1" 20 0; item "zz" 1 0] None db0
     = (db0, res_status_json 400 (JError "Stock insuficiente")).
Proof. repeat split; reflexivity. Qed.

(** Once the loop went through, the handler only adds the record or answers
    500: the products are as the loop left them. *)
Lemma recordTransaction_after_loop (e : Endpoint) (items : list Item.t)
  (cp : option string) (db db1 : DB) (total : Q) (lis : list LineItem.t) :
  generic_for (policy e) items 0 [] db = (db1, Normal (total, lis)) ->
  exists db' r,
    recordTransaction e items cp db = (db', r)
    /\ Productos db' = Productos db1
    /\ match validar e lis with
       | None => r = res_json (registro e total lis cp)
                 /\ db' = persistir db1 (registro e total lis cp)
       | Some msg => r = res_status_json 500 (JError msg) /\ db' = db1
       end.
Proof.
  intros Hloop. rewrite recordTransaction_unfold, Hloop.
  destruct (validar e lis) as [msg|]; do 2 eexists;
    (split; [reflexivity|]); split; auto.
  apply persistir_registro.
Qed.

Lemma productos_validate_None (lis : list LineItem.t) :
  Backend.productos_validate lis = None <->
  Forall (fun li => Backend.item_validate li = None) lis.
Proof.
  induction lis as [|li lis IH]; simpl.
  - split; auto.
  - destruct (Backend.item_validate li) eqn:E.
    + split; [discriminate|]. intros H; inversion H; congruence.
    + rewrite IH. split; [by constructor|]. by intros H; inversion H.
Qed.

Lemma item_validate_resuelto (pi : Policy) (it : Item.t) (p : Producto.t) :
  Producto.codigo p <> "" -> Producto.nombre p <> "" ->
  1 <= Item.cantidad it ->
  Backend.item_validate (resuelto pi it p) = None.
Proof.
  intros Hc Hn Hq. unfold Backend.item_validate. simpl.
  apply String.eqb_neq in Hc, Hn. rewrite Hc, Hn.
  apply Qltb_false in Hq. by rewrite Hq.
Qed.

Lemma item_validate_min (li : LineItem.t) :
  LineItem.cantidad li < 1 -> Backend.item_validate li <> None.
Proof.
  intros Hq. unfold Backend.item_validate.
  destruct (String.eqb (LineItem.codigo li) ""); [discriminate|].
  destruct (String.eqb (LineItem.nombre li) ""); [discriminate|].
  apply Qltb_true in Hq. rewrite Hq. discriminate.
Qed.

(** C5 (amended). A Purchase whose items all name existing products and
    carry non-negative quantities goes through its loop whatever the stock
    levels are: each product's stock is its prior stock with the quantities
    of the items that name it added one after the other, so it never
    decreases, and no product appears or disappears.  The accounting server
    then answers 200; the unified server answers 200 when, in addition,
    every quantity is at least 1 and every stored product has a code and a
    name. *)
Theorem purchase_increments_stock (e : Endpoint) (items : list Item.t)
  (cp : option string) (db : DB) :
  kind e = Purchase ->
  Forall (fun it => is_Some (Productos db !! Item.productoId it)) items ->
  Forall (fun it => 0 <= Item.cantidad it) items ->
  exists db' r,
    recordTransaction e items cp db = (db', r)
    /\ (forall id p, Productos db !! id = Some p ->
          exists p',
            Productos db' !! id = Some p'
            /\ p' = Producto.set_stock p (Producto.stock p')
            /\ Producto.stock p' =
               fold_left
                 (fun s it =>
                    if bool_decide (Item.productoId it = id)
                    then s + Item.cantidad it else s)
                 items (Producto.stock p)
            /\ Producto.stock p <= Producto.stock p')
    /\ (forall id, Productos db !! id = None -> Productos db' !! id = None)
    /\ (e = ContabilidadCompras -> status r = 200%nat)
    /\ (db_valid db -> Forall (fun it => 1 <= Item.cantidad it) items ->
        status r = 200%nat).
Proof.
  intros Hk Hall Hq.
  destruct (generic_for_sin_control (policy e) items
              (verifica_stock_purchase e Hk) 0 [] db Hall)
    as (db1 & total & lis & Hloop).
  destruct (recordTransaction_after_loop e items cp _ _ _ _ Hloop)
    as (db' & r & Hr & Hprod & Hval).
  pose proof (generic_for_normal _ _ _ _ _ _ _ _ Hloop)
    as (lis' & Hl & _ & Hres & Hst & _ & _).
  simpl in Hl; subst lis'.
  exists db', r. split; [exact Hr|]. rewrite Hprod.
  assert (Hresta : resta_stock (policy e) = false)
    by (destruct e; try discriminate; reflexivity).
  repeat split.
  - intros id p Hp. eexists. rewrite Hst, Hp. simpl.
    split; [reflexivity|]. split; [reflexivity|]. split.
    + destruct e; try discriminate; reflexivity.
    + by apply stock_tras_no_baja.
  - intros id Hp. by rewrite Hst, Hp.
  - intros ->. simpl in Hval. by destruct Hval as [-> _].
  - intros Hdb Hmin.
    assert (validar e lis = None) as Hv.
    { destruct e; try reflexivity; simpl; apply productos_validate_None;
        clear -Hres Hdb Hmin;
        (induction Hres as [|it li items lis (p & Hp & ->) _ IH];
         constructor;
         [destruct (Hdb _ _ Hp); apply item_validate_resuelto; auto;
          by inversion Hmin
         |apply IH; by inversion Hmin]). }
    rewrite Hv in Hval. by destruct Hval as [-> _].
Qed.

Lemma purchase_increments_stock_witness :
  exists db' r,
    recordTransaction BackendCompras [item "a1" 2 60; item "a1" 1 55] None db0
      = (db', r)
    /\ status r = 200%nat
    /\ exists p', Productos db' !! "a1" = Some p'
                  /\ Producto.stock p' = 10 + 2 + 1
                  /\ Producto.stock A1 <= Producto.stock p'.
Proof.
  destruct (purchase_increments_stock BackendCompras
              [item "a1" 2 60; item "a1" 1 55] None db0 eq_refl)
    as (db' & r & Hr & Hst & _ & _ & Hok).
  - repeat constructor; vm_compute; eauto.
  - repeat constructor; vm_compute; discriminate.
  - exists db', r. split; [exact Hr|]. split.
    + apply Hok.
      * intros id p. unfold db0. simpl.
        intros Hp. apply lookup_insert_Some in Hp as [[<- <-]|[_ Hp]];
          [by split|].
        apply lookup_insert_Some in Hp as [[<- <-]|[_ Hp]]; [by split|].
        by rewrite lookup_empty in Hp.
      * repeat constructor; vm_compute; discriminate.
    + destruct (Hst "a1" A1 eq_refl) as (p' & Hp' & _ & Hs & Hle).
      exists p'. repeat split; assumption.
Defined.

(** C5, as stated, fails for a negative quantity: the accounting server
    records a purchase of -3 units of "a1" and the stock falls from 10 to 7;
    the unified server also saves the lower stock, and then answers 500. *)
Lemma purchase_decreases_stock_counterexample :
  exists db' db'',
    fst (recordTransaction ContabilidadCompras [item "a1" (-3) 60] None db0) = db'
    /\ status (snd (recordTransaction ContabilidadCompras
                      [item "a1" (-3) 60] None db0)) = 200%nat
    /\ Producto.stock <$> Productos db0 !! "a1" = Some 10
    /\ Producto.stock <$> Productos db' !! "a1" = Some 7
    /\ fst (recordTransaction BackendCompras [item "a1" (-3) 60] None db0) = db''
    /\ status (snd (recordTransaction BackendCompras
                      [item "a1" (-3) 60] None db0)) = 500%nat
    /\ Producto.stock <$> Productos db'' !! "a1" = Some 7.
Proof.
  do 2 eexists. repeat split; reflexivity.
Qed.

(** C9. For a Purchase item that names an existing product, the loop of
    either purchase handler saves stock + quantity and goes on to the next
    item, for every quantity: zero and negative quantities included, with
    no check on the quantity or on the new stock.  At the level of the
    endpoint, a one-item purchase leaves that product with stock + quantity
    whatever the response is, so a quantity below -stock leaves a negative
    stock. *)
Theorem purchase_adds_any_quantity (e : Endpoint) (it : Item.t)
  (rest : list Item.t) (total : Q) (acc : list LineItem.t)
  (cp : option string) (db : DB) (p : Producto.t) :
  kind e = Purchase ->
  Productos db !! Item.productoId it = Some p ->
  let p' := Producto.set_stock p (Producto.stock p + Item.cantidad it) in
  let db1 := con_productos db (<[Item.productoId it := p']> (Productos db)) in
  for_loop e (it :: rest) total acc db
  = for_loop e rest (total + Item.precioUnitario it * Item.cantidad it)
      (acc ++ [{| LineItem.productoId := Item.productoId it;
                  LineItem.codigo := Producto.codigo p;
                  LineItem.nombre := Producto.nombre p;
                  LineItem.cantidad := Item.cantidad it;
                  LineItem.precioUnitario := Item.precioUnitario it;
                  LineItem.subtotal :=
                    Item.precioUnitario it * Item.cantidad it |}]) db1
  /\ Productos (fst (recordTransaction e [it] cp db)) = Productos db1
  /\ (Item.cantidad it < - Producto.stock p ->
      exists p'',
        Productos (fst (recordTransaction e [it] cp db)) !! Item.productoId it
          = Some p''
        /\ Producto.stock p'' < 0).
Proof.
  intros Hk Hp p' db1.
  assert (Hstep : paso (policy e) it db = inr (db1, resuelto (policy e) it p)).
  { unfold paso. rewrite Hp, (verifica_stock_purchase e Hk).
    destruct e; try discriminate; reflexivity. }
  assert (Hone : Productos (fst (recordTransaction e [it] cp db)) = Productos db1).
  { destruct (recordTransaction_after_loop e [it] cp db db1
                (0 + LineItem.subtotal (resuelto (policy e) it p))
                ([] ++ [resuelto (policy e) it p]))
      as (db' & r & Hr & Hprod & _).
    - simpl. by rewrite Hstep.
    - by rewrite Hr. }
  split; [|split].
  - destruct e; try discriminate; simpl; unfold bind, findById; simpl;
      rewrite Hp; reflexivity.
  - exact Hone.
  - intros Hneg. exists p'. rewrite Hone. subst db1. simpl.
    rewrite lookup_insert_eq. split; [reflexivity|]. simpl. lra.
Qed.

Lemma purchase_adds_any_quantity_witness :
  Producto.stock <$>
    Productos (fst (recordTransaction ContabilidadCompras
                      [item "b2" (-10) 30] None db0)) !! "b2"
    = Some (5 + -10)
  /\ Producto.stock <$>
       Productos (fst (recordTransaction BackendCompras
                         [item "b2" (-10) 30] None db0)) !! "b2"
     = Some (5 + -10)
  /\ Producto.stock <$>
       Productos (fst (recordTransaction BackendCompras
                         [item "b2" 0 30] None db0)) !! "b2"
     = Some (5 + 0)
  /\ 5 + -10 < 0.
Proof.
  destruct (purchase_adds_any_quantity ContabilidadCompras (item "b2" (-10) 30)
              [] 0 [] None db0 B2 eq_refl eq_refl) as (_ & H1 & _).
  destruct (purchase_adds_any_quantity BackendCompras (item "b2" (-10) 30)
              [] 0 [] None db0 B2 eq_refl eq_refl) as (_ & H2 & _).
  destruct (purchase_adds_any_quantity BackendCompras (item "b2" 0 30)
              [] 0 [] None db0 B2 eq_refl eq_refl) as (_ & H3 & _).
  rewrite H1, H2, H3. repeat split; reflexivity.
Defined.

(** C6. For every existing product and every signed delta, the manual
    adjustment stores max(0, stock + delta) and answers 200 with the
    product: the stored stock is never negative and is exactly 0 when the
    delta would drive it below zero; no other product changes.  A Sale of
    more units than the stock is rejected with 400 instead, and changes
    nothing. *)
Theorem adjust_stock_clamps (id : ObjectId) (delta : Q) (db : DB)
  (p : Producto.t) :
  Productos db !! id = Some p ->
  exists p',
    Inventario.patch_stock id delta db
      = (con_productos db (<[id := p']> (Productos db)),
         res_json (JProducto id p'))
    /\ p' = Producto.set_stock p (Producto.stock p')
    /\ Producto.stock p' == Qmax 0 (Producto.stock p + delta)
    /\ 0 <= Producto.stock p'
    /\ (Producto.stock p + delta < 0 -> Producto.stock p' = 0)
    /\ (0 <= Producto.stock p + delta ->
        Producto.stock p' = Producto.stock p + delta)
    /\ (forall e cantidad precioUnitario cp,
          kind e = Sale -> Producto.stock p < cantidad ->
          fst (recordTransaction e [item id cantidad precioUnitario] cp db) = db
          /\ status (snd (recordTransaction e
                            [item id cantidad precioUnitario] cp db)) = 400%nat).
Proof.
  intros Hp.
  assert (Hsale : forall e cantidad precioUnitario cp,
             kind e = Sale -> Producto.stock p < cantidad ->
             fst (recordTransaction e [item id cantidad precioUnitario] cp db) = db
             /\ status (snd (recordTransaction e
                               [item id cantidad precioUnitario] cp db)) = 400%nat).
  { intros e cantidad precioUnitario cp Hk Hlt.
    destruct (verifica_stock_sale e Hk) as (msg & Hmsg & _).
    pose proof (recordTransaction_stops e [] []
                  (item id cantidad precioUnitario) cp db db 0 []
                  (res_status_json 400 (JError (msg p))) eq_refl
                  (paso_sin_stock _ (item id cantidad precioUnitario) db p msg
                     Hp Hmsg Hlt)) as Hr.
    simpl in Hr. rewrite Hr. split; reflexivity. }
  unfold Inventario.patch_stock, try_catch, bind, findById. simpl.
  rewrite Hp. simpl.
  destruct (Qltb (Producto.stock p + delta) 0) eqn:E; simpl; eexists;
    (split; [reflexivity|]); simpl.
  - apply Qltb_true in E.
    split; [reflexivity|]. split; [rewrite Q.max_l; [reflexivity|lra]|].
    split; [lra|]. split; [reflexivity|]. split; [intros; lra|exact Hsale].
  - apply Qltb_false in E.
    split; [reflexivity|]. split; [rewrite Q.max_r; [reflexivity|lra]|].
    split; [lra|]. split; [intros; lra|]. split; [reflexivity|exact Hsale].
Qed.

Lemma adjust_stock_clamps_witness :
  exists p',
    Inventario.patch_stock "b2" (-1000000) db0
      = (con_productos db0 (<["b2" := p']> (Productos db0)),
         res_json (JProducto "b2" p'))
    /\ Producto.stock B2 = 5
    /\ Producto.stock p' = 0.
Proof.
  destruct (adjust_stock_clamps "b2" (-1000000) db0 B2 eq_refl)
    as (p' & Hr & _ & _ & _ & Hzero & _).
  exists p'. split; [exact Hr|]. split; [reflexivity|].
  apply Hzero. reflexivity.
Defined.

Lemma validar_min (e : Endpoint) (items : list Item.t)
  (lis : list LineItem.t) (db : DB) :
  e = BackendCompras \/ e = BackendVentas ->
  Forall2 (fun it li => exists p,
             Productos db !! Item.productoId it = Some p
             /\ li = resuelto (policy e) it p) items lis ->
  Exists (fun it => Item.cantidad it < 1) items ->
  exists msg, validar e lis = Some msg
              /\ Backend.productos_validate lis = Some msg.
Proof.
  intros He Hres Hex.
  assert (Backend.productos_validate lis <> None) as Hv.
  { rewrite productos_validate_None. intros Hall.
    clear He. induction Hres as [|it li items lis (p & _ & ->) _ IH].
    - inversion Hex.
    - inversion Hall as [|? ? Hli Hrest]; subst.
      inversion Hex as [? ? Hq|? ? Hq]; subst; [|by apply IH].
      by apply (item_validate_min (resuelto (policy e) it p)). }
  destruct (Backend.productos_validate lis) as [msg|] eqn:E; [|congruence].
  exists msg. by destruct He as [-> | ->].
Qed.

(** C7 (amended). Take a call whose items all went through the loop and
    one of which has quantity < 1.  On the unified server the schema
    ([min: 1]) rejects the record when it is saved: the answer is 500 with
    the validation message and no sale or purchase is recorded.  The
    inventory server's sale handler and the accounting server's purchase
    handler have no such validator: the call answers 200 and the record is
    stored. *)
Theorem quantity_below_one (e : Endpoint) (items : list Item.t)
  (cp : option string) (db db1 : DB) (total : Q) (lis : list LineItem.t) :
  for_loop e items 0 [] db = (db1, Normal (total, lis)) ->
  Exists (fun it => Item.cantidad it < 1) items ->
  match e with
  | BackendCompras | BackendVentas =>
      exists msg,
        recordTransaction e items cp db
          = (db1, res_status_json 500 (JError msg))
        /\ Backend.productos_validate lis = Some msg
        /\ Ventas db1 = Ventas db /\ Compras db1 = Compras db
  | InventarioVentas | ContabilidadCompras =>
      exists db' j,
        recordTransaction e items cp db = (db', res_json j)
        /\ persistido db db' j
        /\ Exists (fun li => LineItem.cantidad li < 1)
             (default [] (Transaction.productos <$> transaction j))
  end.
Proof.
  intros Hloop Hex. apply for_loop_normal_generic in Hloop.
  pose proof (generic_for_normal _ _ _ _ _ _ _ _ Hloop)
    as (lis' & Hl & _ & Hres & _ & Hv & Hc).
  simpl in Hl; subst lis'.
  destruct (recordTransaction_after_loop e items cp _ _ _ _ Hloop)
    as (db' & r & Hr & _ & Hval).
  assert (Hcant : Exists (fun li => LineItem.cantidad li < 1) lis).
  { clear -Hres Hex. induction Hres as [|it li items lis (p & _ & ->) _ IH].
    - inversion Hex.
    - inversion Hex; subst; [by left|right; by apply IH]. }
  destruct e.
  - simpl in Hval. destruct Hval as [-> ->].
    do 2 eexists. split; [exact Hr|].
    split; [simpl; rewrite Hv, Hc; auto|exact Hcant].
  - simpl in Hval. destruct Hval as [-> ->].
    do 2 eexists. split; [exact Hr|].
    split; [simpl; rewrite Hv, Hc; auto|exact Hcant].
  - destruct (validar_min BackendCompras items lis db (or_introl eq_refl) Hres Hex)
      as (msg & Hmsg & Hpv).
    rewrite Hmsg in Hval. destruct Hval as [-> ->]. exists msg. auto.
  - destruct (validar_min BackendVentas items lis db (or_intror eq_refl) Hres Hex)
      as (msg & Hmsg & Hpv).
    rewrite Hmsg in Hval. destruct Hval as [-> ->]. exists msg. auto.
Qed.

Lemma quantity_below_one_witness :
  exists msg db1,
    recordTransaction BackendVentas [item "a1" 2 100; item "b2" 0 50] None db0
      = (db1, res_status_json 500 (JError msg))
    /\ Ventas db1 = [].
Proof.
  destruct (quantity_below_one BackendVentas
              [item "a1" 2 100; item "b2" 0 50] None db0 _ _ _ eq_refl)
    as (msg & Hr & _ & Hv & _).
  - right. left. reflexivity.
  - exists msg. eexists. split; [exact Hr|exact Hv].
Defined.

(** C7, as stated, fails on the handlers whose schema has no validator: a
    sale of 0 units on the inventory server, and a purchase of 0 units on
    the accounting server, answer 200 and store the record. *)
Lemma quantity_below_one_counterexample :
  exists db' v db'' c,
    recordTransaction InventarioVentas [item "a1" 0 0] None db0
      = (db', res_json (JVenta v))
    /\ Ventas db' = [v]
    /\ LineItem.cantidad <$> Venta.productos v = [0]
    /\ recordTransaction ContabilidadCompras [item "a1" 0 60] None db0
       = (db'', res_json (JCompra c))
    /\ Compras db'' = [c]
    /\ LineItem.cantidad <$> Compra.productos c = [0].
Proof.
  do 4 eexists. split; [vm_compute; reflexivity|].
  split; [reflexivity|]. split; [reflexivity|].
  split; [vm_compute; reflexivity|]. split; reflexivity.
Qed.

(** ** Creating a product *)

Lemma post_productos_unfold (cl : Cloudinary) (id : ObjectId)
  (body : Inventario.Body.t) (db : DB) :
  Inventario.post_productos cl id body db =
  match foto_de cl body with
  | inl err => (db, catch_productos err)
  | inr foto =>
      match Inventario.productoSchema_validate (nuevo_de body foto) with
      | Some msg => (db, res_status_json 500 (JError msg))
      | None =>
          if Inventario.codigo_en_uso (Inventario.Body.codigo body) (Productos db)
             || bool_decide (is_Some (Productos db !! id))
          then (db, res_status_json 400 (JError "Código ya existe"))
          else (con_productos db (<[id := nuevo_de body foto]> (Productos db)),
                res_json (JProducto id (nuevo_de body foto)))
      end
  end.
Proof.
  unfold Inventario.post_productos, try_catch, bind, foto_de.
  destruct (truthy (Inventario.Body.base64Foto body)).
  - destruct (upload cl (default "" (Inventario.Body.base64Foto body)))
      as [err|[secure_url public_id]]; [reflexivity|].
    simpl. unfold Inventario.save_nuevo.
    change ({| Producto.codigo := Inventario.Body.codigo body;
               Producto.nombre := Inventario.Body.nombre body;
               Producto.categoria := Inventario.Body.categoria body;
               Producto.stock := default 0 (Inventario.Body.stock body);
               Producto.precioCosto := Inventario.Body.precioCosto body;
               Producto.precioVenta := Inventario.Body.precioVenta body;
               Producto.proveedor := Inventario.Body.proveedor body;
               Producto.fotoUrl := secure_url;
               Producto.fotoId := public_id |})
      with (nuevo_de body (secure_url, public_id)).
    destruct (Inventario.productoSchema_validate
                (nuevo_de body (secure_url, public_id))); [reflexivity|].
    simpl.
    destruct (Inventario.codigo_en_uso (Inventario.Body.codigo body) (Productos db)
              || bool_decide (is_Some (Productos db !! id))); reflexivity.
  - simpl. unfold Inventario.save_nuevo.
    change ({| Producto.codigo := Inventario.Body.codigo body;
               Producto.nombre := Inventario.Body.nombre body;
               Producto.categoria := Inventario.Body.categoria body;
               Producto.stock := default 0 (Inventario.Body.stock body);
               Producto.precioCosto := Inventario.Body.precioCosto body;
               Producto.precioVenta := Inventario.Body.precioVenta body;
               Producto.proveedor := Inventario.Body.proveedor body;
               Producto.fotoUrl := "";
               Producto.fotoId := "" |})
      with (nuevo_de body ("", "")).
    destruct (Inventario.productoSchema_validate (nuevo_de body ("", "")));
      [reflexivity|].
    simpl.
    destruct (Inventario.codigo_en_uso (Inventario.Body.codigo body) (Productos db)
              || bool_decide (is_Some (Productos db !! id))); reflexivity.
Qed.

Lemma productoSchema_validate_None (p : Producto.t) :
  Inventario.productoSchema_validate p = None <->
  Producto.codigo p <> "" /\ Producto.nombre p <> "".
Proof.
  unfold Inventario.productoSchema_validate.
  destruct (String.eqb_spec (Producto.codigo p) "") as [Hc|Hc];
    [split; [discriminate|tauto]|].
  destruct (String.eqb_spec (Producto.nombre p) "") as [Hn|Hn];
    [split; [discriminate|tauto]|].
  tauto.
Qed.

Lemma codigo_en_uso_true (c : string) (m : gmap ObjectId Producto.t) :
  Inventario.codigo_en_uso c m = true <->
  exists id p, m !! id = Some p /\ Producto.codigo p = c.
Proof. unfold Inventario.codigo_en_uso. by rewrite bool_decide_eq_true. Qed.

(** ** Failure responses *)

(** A sale or purchase call that does not answer 200 answers with an
    [{error: message}] body. *)
Lemma recordTransaction_error (e : Endpoint) (items : list Item.t)
  (cp : option string) (db : DB) :
  status (snd (recordTransaction e items cp db)) = 200%nat
  \/ exists msg, body (snd (recordTransaction e items cp db)) = JError msg.
Proof.
  rewrite recordTransaction_unfold.
  destruct (generic_for (policy e) items 0 [] db) as [db1 [[t l]|r0|err]] eqn:E.
  - destruct (validar e l); simpl; eauto.
  - apply generic_for_return in E as (pre & it & post & t1 & a1 & _ & _ & Hit).
    apply paso_inl_status in Hit as [_ Hmsg]. by right.
  - by apply generic_for_no_throw in E.
Qed.

(** The answers of POST /api/productos, by status. *)
Lemma post_productos_cases (cl : Cloudinary) (id : ObjectId)
  (b : Inventario.Body.t) (db : DB) :
  exists db' r,
    Inventario.post_productos cl id b db = (db', r)
    /\ ((status r = 200%nat
         /\ exists foto,
              foto_de cl b = inr foto
              /\ body r = JProducto id (nuevo_de b foto)
              /\ Productos db' = <[id := nuevo_de b foto]> (Productos db))
        \/ (r = res_status_json 400 (JError "Código ya existe")
            /\ db' = db
            /\ ((exists id0 p0,
                   Productos db !! id0 = Some p0
                   /\ Producto.codigo p0 = Inventario.Body.codigo b)
                \/ is_Some (Productos db !! id)
                \/ exists err, foto_de cl b = inl err
                               /\ code err = Some 11000%N))
        \/ (status r = 500%nat
            /\ db' = db
            /\ exists msg,
                 body r = JError msg
                 /\ (Inventario.Body.codigo b = ""
                     \/ Inventario.Body.nombre b = ""
                     \/ exists err, foto_de cl b = inl err
                                    /\ message err = msg))).
Proof.
  rewrite post_productos_unfold.
  destruct (foto_de cl b) as [err|foto] eqn:F.
  - unfold catch_productos. case_bool_decide as Hcode; do 2 eexists;
      (split; [reflexivity|]); right.
    + left. split; [reflexivity|]. split; [reflexivity|]. right. right. eauto.
    + right. split; [reflexivity|]. split; [reflexivity|].
      eexists. split; [reflexivity|]. right. right. eauto.
  - destruct (Inventario.productoSchema_validate (nuevo_de b foto))
      as [msg|] eqn:V.
    + do 2 eexists. split; [reflexivity|]. right. right.
      split; [reflexivity|]. split; [reflexivity|].
      exists msg. split; [reflexivity|].
      destruct (decide (Inventario.Body.codigo b = "")) as [?|Hc]; [by left|].
      destruct (decide (Inventario.Body.nombre b = "")) as [?|Hn];
        [by right; left|].
      assert (Inventario.productoSchema_validate (nuevo_de b foto) = None)
        by (by apply productoSchema_validate_None).
      congruence.
    + destruct (Inventario.codigo_en_uso (Inventario.Body.codigo b)
                  (Productos db)) eqn:U; simpl.
      * do 2 eexists. split; [reflexivity|]. right. left.
        split; [reflexivity|]. split; [reflexivity|]. left.
        by apply codigo_en_uso_true.
      * case_bool_decide as Hid; do 2 eexists; (split; [reflexivity|]).
        -- right. left. split; [reflexivity|]. split; [reflexivity|].
           right. by left.
        -- left. split; [reflexivity|]. exists foto. auto.
Qed.

(** A second create with the code of a product just created answers 400
    and leaves the store as it was. *)
Lemma post_productos_second (cl : Cloudinary) (id1 id2 : ObjectId)
  (b1 b2 : Inventario.Body.t) (db db1 : DB) (r1 : Response) :
  Inventario.post_productos cl id1 b1 db = (db1, r1) ->
  status r1 = 200%nat ->
  Inventario.Body.codigo b2 = Inventario.Body.codigo b1 ->
  Inventario.Body.nombre b2 <> "" ->
  (forall err, foto_de cl b2 <> inl err) ->
  Inventario.post_productos cl id2 b2 db1
  = (db1, res_status_json 400 (JError "Código ya existe")).
Proof.
  intros H1 Hs Hcod Hnom Hfoto.
  destruct (post_productos_cases cl id1 b1 db) as (db' & r & Hr & Hcases).
  rewrite H1 in Hr. inversion Hr; subst db' r. clear Hr.
  destruct Hcases as [(_ & foto & Hf & _ & Hprod)|[(-> & _)|(Hs5 & _)]];
    [|discriminate|congruence].
  assert (Hval1 : Inventario.productoSchema_validate (nuevo_de b1 foto) = None).
  { rewrite post_productos_unfold, Hf in H1.
    destruct (Inventario.productoSchema_validate (nuevo_de b1 foto));
      [|reflexivity].
    inversion H1; subst. discriminate. }
  apply productoSchema_validate_None in Hval1 as [Hc1 _]. simpl in Hc1.
  rewrite post_productos_unfold.
  destruct (foto_de cl b2) as [err|foto2] eqn:F2; [by destruct (Hfoto err)|].
  assert (Inventario.productoSchema_validate (nuevo_de b2 foto2) = None) as ->.
  { apply productoSchema_validate_None. simpl. rewrite Hcod. auto. }
  assert (Inventario.codigo_en_uso (Inventario.Body.codigo b2) (Productos db1)
          = true) as ->.
  { apply codigo_en_uso_true. exists id1, (nuevo_de b1 foto).
    rewrite Hprod, lookup_insert_eq. split; [reflexivity|]. simpl. auto. }
  reflexivity.
Qed.

Lemma patch_stock_error (id : ObjectId) (delta : Q) (db : DB) :
  status (snd (Inventario.patch_stock id delta db)) = 200%nat
  \/ exists msg, body (snd (Inventario.patch_stock id delta db)) = JError msg.
Proof.
  unfold Inventario.patch_stock, try_catch, bind, findById. simpl.
  destruct (Productos db !! id) as [p|]; simpl; eauto.
Qed.

Lemma delete_producto_error (cl : Cloudinary) (id : ObjectId) (db : DB) :
  status (snd (Inventario.delete_producto cl id db)) = 200%nat
  \/ exists msg,
       body (snd (Inventario.delete_producto cl id db)) = JError msg.
Proof.
  unfold Inventario.delete_producto, try_catch, bind, findById. simpl.
  destruct (Productos db !! id) as [p|]; simpl; [|eauto].
  destruct (negb (String.eqb (Producto.fotoId p) "")); simpl; [|eauto].
  destruct (destroy cl (Producto.fotoId p)); simpl; eauto.
Qed.

Lemma post_productos_error (cl : Cloudinary) (id : ObjectId)
  (b : Inventario.Body.t) (db : DB) :
  status (snd (Inventario.post_productos cl id b db)) = 200%nat
  \/ exists msg, body (snd (Inventario.post_productos cl id b db)) = JError msg.
Proof.
  destruct (post_productos_cases cl id b db)
    as (db' & r & -> & [(Hs & _)|[(-> & _)|(_ & _ & msg & Hmsg & _)]]);
    simpl; eauto.
Qed.

(** Creating a product whose code a stored product has. *)
Lemma post_productos_duplicate (cl : Cloudinary) (id id0 : ObjectId)
  (b : Inventario.Body.t) (db : DB) (p0 : Producto.t) :
  Productos db !! id0 = Some p0 ->
  Producto.codigo p0 = Inventario.Body.codigo b ->
  Inventario.Body.codigo b <> "" -> Inventario.Body.nombre b <> "" ->
  (forall err, foto_de cl b <> inl err) ->
  Inventario.post_productos cl id b db
  = (db, res_status_json 400 (JError "Código ya existe")).
Proof.
  intros Hp0 Hcod Hc Hn Hfoto. rewrite post_productos_unfold.
  destruct (foto_de cl b) as [err|foto] eqn:F; [by destruct (Hfoto err)|].
  assert (Inventario.productoSchema_validate (nuevo_de b foto) = None) as ->
    by (by apply productoSchema_validate_None).
  assert (Inventario.codigo_en_uso (Inventario.Body.codigo b) (Productos db)
          = true) as -> by (apply codigo_en_uso_true; eauto).
  reflexivity.
Qed.

(** Creating a product without a code or without a name. *)
Lemma post_productos_invalid (cl : Cloudinary) (id : ObjectId)
  (b : Inventario.Body.t) (db : DB) :
  Inventario.Body.codigo b = "" \/ Inventario.Body.nombre b = "" ->
  (forall err, foto_de cl b <> inl err) ->
  exists msg,
    Inventario.post_productos cl id b db
    = (db, res_status_json 500 (JError msg)).
Proof.
  intros Hinv Hfoto. rewrite post_productos_unfold.
  destruct (foto_de cl b) as [err|foto] eqn:F; [by destruct (Hfoto err)|].
  destruct (Inventario.productoSchema_validate (nuevo_de b foto)) as [msg|]
    eqn:V; [by exists msg|].
  apply productoSchema_validate_None in V as [Hc Hn]. simpl in Hc, Hn.
  destruct Hinv; contradiction.
Qed.

(** Creating a product whose photo Cloudinary rejects. *)
Lemma post_productos_upload (cl : Cloudinary) (id : ObjectId)
  (b : Inventario.Body.t) (db : DB) (err : JsError) :
  foto_de cl b = inl err -> code err <> Some 11000%N ->
  Inventario.post_productos cl id b db
  = (db, res_status_json 500 (JError (message err))).
Proof.
  intros Hf Hcode. rewrite post_productos_unfold, Hf.
  unfold catch_productos. by rewrite bool_decide_eq_false_2.
Qed.

(** A record with a quantity below 1 on the unified server. *)
Lemma recordTransaction_min (e : Endpoint) (items : list Item.t)
  (cp : option string) (db db1 : DB) (total : Q) (lis : list LineItem.t) :
  e = BackendCompras \/ e = BackendVentas ->
  for_loop e items 0 [] db = (db1, Normal (total, lis)) ->
  Exists (fun it => Item.cantidad it < 1) items ->
  exists msg,
    recordTransaction e items cp db = (db1, res_status_json 500 (JError msg)).
Proof.
  intros He Hloop Hex. apply for_loop_normal_generic in Hloop.
  pose proof (generic_for_normal _ _ _ _ _ _ _ _ Hloop)
    as (lis' & Hl & _ & Hres & _ & _ & _).
  simpl in Hl; subst lis'.
  destruct (validar_min e items lis db He Hres Hex) as (msg & Hmsg & _).
  exists msg. by rewrite recordTransaction_unfold, Hloop, Hmsg.
Qed.

(** C8 (amended). Every call of a handler that has a [try ... catch]
    (creating a product, recording a sale or a purchase, adjusting a stock,
    deleting a product) that does not answer 200 answers with a structured
    [{error: message}] body.  The status reflects the failure kind: 404
    'Producto no encontrado' when the loop of a sale or purchase reaches an
    item whose product is not found; 400 'Stock insuficiente...' when the
    loop of a Sale reaches an item that asks more than the product's
    stock; 400 'Código ya existe' when a product is created with the code
    of a stored product, the body having a code and a name and the upload
    not being rejected (so a second create with the code of a product just
    created fails and leaves the store unchanged); 500 for a validation
    failure (a product created without a code or a name, a record with a
    quantity below 1 on the unified server) and for a rejected upload. *)
Theorem failure_responses (cl : Cloudinary) (e : Endpoint)
  (items pre post : list Item.t) (it : Item.t) (cp : option string)
  (id : ObjectId) (delta : Q) (b : Inventario.Body.t) (db db1 : DB)
  (t1 : Q) (a1 : list LineItem.t) :
  (status (snd (recordTransaction e items cp db)) = 200%nat
   \/ exists msg, body (snd (recordTransaction e items cp db)) = JError msg)
  /\ (status (snd (Inventario.post_productos cl id b db)) = 200%nat
      \/ exists msg,
           body (snd (Inventario.post_productos cl id b db)) = JError msg)
  /\ (status (snd (Inventario.patch_stock id delta db)) = 200%nat
      \/ exists msg, body (snd (Inventario.patch_stock id delta db)) = JError msg)
  /\ (status (snd (Inventario.delete_producto cl id db)) = 200%nat
      \/ exists msg,
           body (snd (Inventario.delete_producto cl id db)) = JError msg)
  /\ (for_loop e pre 0 [] db = (db1, Normal (t1, a1)) ->
      Productos db1 !! Item.productoId it = None ->
      recordTransaction e (pre ++ it :: post) cp db
      = (db1, res_status_json 404 (JError "Producto no encontrado")))
  /\ (forall p,
        kind e = Sale ->
        for_loop e pre 0 [] db = (db1, Normal (t1, a1)) ->
        Productos db1 !! Item.productoId it = Some p ->
        Producto.stock p < Item.cantidad it ->
        exists msg,
          recordTransaction e (pre ++ it :: post) cp db
          = (db1, res_status_json 400 (JError msg))
          /\ String.prefix "Stock insuficiente" msg = true)
  /\ (forall id0 p0,
        Productos db !! id0 = Some p0 ->
        Producto.codigo p0 = Inventario.Body.codigo b ->
        Inventario.Body.codigo b <> "" -> Inventario.Body.nombre b <> "" ->
        (forall err, foto_de cl b <> inl err) ->
        Inventario.post_productos cl id b db
        = (db, res_status_json 400 (JError "Código ya existe")))
  /\ (forall id2 b2 db2 r1,
        Inventario.post_productos cl id b db = (db2, r1) ->
        status r1 = 200%nat ->
        Inventario.Body.codigo b2 = Inventario.Body.codigo b ->
        Inventario.Body.nombre b2 <> "" ->
        (forall err, foto_de cl b2 <> inl err) ->
        Inventario.post_productos cl id2 b2 db2
        = (db2, res_status_json 400 (JError "Código ya existe")))
  /\ (Inventario.Body.codigo b = "" \/ Inventario.Body.nombre b = "" ->
      (forall err, foto_de cl b <> inl err) ->
      exists msg,
        Inventario.post_productos cl id b db
        = (db, res_status_json 500 (JError msg)))
  /\ (forall total lis,
        e = BackendCompras \/ e = BackendVentas ->
        for_loop e items 0 [] db = (db1, Normal (total, lis)) ->
        Exists (fun i => Item.cantidad i < 1) items ->
        exists msg,
          recordTransaction e items cp db
          = (db1, res_status_json 500 (JError msg)))
  /\ (forall err,
        foto_de cl b = inl err -> code err <> Some 11000%N ->
        Inventario.post_productos cl id b db
        = (db, res_status_json 500 (JError (message err)))).
Proof.
  split; [apply recordTransaction_error|].
  split; [apply post_productos_error|].
  split; [apply patch_stock_error|].
  split; [apply delete_producto_error|].
  split.
  { intros Hpre Hnone. apply for_loop_normal_generic in Hpre.
    eapply recordTransaction_stops; [exact Hpre|by apply paso_missing]. }
  split.
  { intros p Hk Hpre Hp Hlt. apply for_loop_normal_generic in Hpre.
    destruct (verifica_stock_sale e Hk) as (msg & Hmsg & Hpref).
    exists (msg p). split; [|apply Hpref].
    eapply recordTransaction_stops; [exact Hpre|].
    by apply paso_sin_stock. }
  split; [intros id0 p0; apply post_productos_duplicate|].
  split; [intros id2 b2 db2 r1; apply post_productos_second|].
  split; [apply post_productos_invalid|].
  split; [intros total lis; apply recordTransaction_min|].
  intros err; apply post_productos_upload.
Qed.

Lemma failure_responses_witness :
  exists db1,
    Inventario.post_productos cloud "c3" (cuerpo "C3" "Harina") db0
      = (db1, res_json (JProducto "c3" (nuevo_de (cuerpo "C3" "Harina") ("", ""))))
    /\ Inventario.post_productos cloud "d4" (cuerpo "C3" "Fideos") db1
       = (db1, res_status_json 400 (JError "Código ya existe"))
    /\ Inventario.post_productos cloud "d4" (cuerpo "A1" "Otra yerba") db0
       = (db0, res_status_json 400 (JError "Código ya existe"))
    /\ recordTransaction BackendVentas ([item "a1" 1 100] ++ item "zz" 1 1 :: [])
         None db0
       = (fst (Backend.ventas_for [item "a1" 1 100] 0 [] db0),
          res_status_json 404 (JError "Producto no encontrado")).
Proof.
  eexists. split; [vm_compute; reflexivity|].
  destruct (failure_responses cloud BackendVentas [] [item "a1" 1 100] []
              (item "zz" 1 1) None "c3" 0 (cuerpo "C3" "Harina") db0
              (fst (Backend.ventas_for [item "a1" 1 100] 0 [] db0))
              (0 + 100 * 1)
              (snd (match snd (Backend.ventas_for [item "a1" 1 100] 0 [] db0)
                    with Normal x => x | _ => (0, []) end)))
    as (_ & _ & _ & _ & H404 & _ & _ & Hsecond & _).
  destruct (failure_responses cloud BackendVentas [] [] [] (item "zz" 1 1)
              None "d4" 0 (cuerpo "A1" "Otra yerba") db0 db0 0 [])
    as (_ & _ & _ & _ & _ & _ & Hdup & _).
  split; [|split].
  - apply (Hsecond "d4" (cuerpo "C3" "Fideos") _ _ eq_refl eq_refl eq_refl).
    + discriminate.
    + intros err; discriminate.
  - apply (Hdup "a1" A1 eq_refl eq_refl).
    + discriminate.
    + discriminate.
    + intros err; discriminate.
  - apply H404; reflexivity.
Defined.

(** C8, as stated, fails in two places.  A validation failure is answered
    with 500, not 400: creating a product without a name, and recording a
    sale of 0 units on the unified server.  A stock adjustment or a
    deletion that names a missing product is answered with 500, not 404. *)
Lemma failure_status_counterexample :
  Inventario.post_productos cloud "c3" (cuerpo "C3" "") db0
    = (db0, res_status_json 500
              (JError "Producto validation failed: nombre: Path `nombre` is required."))
  /\ recordTransaction BackendVentas [item "a1" 0 100] None db0
     = (db0, res_status_json 500
               (JError "Path `cantidad` is less than minimum allowed value (1)."))
  /\ Productos db0 !! "zz" = None
  /\ Inventario.patch_stock "zz" 1 db0
     = (db0, res_status_json 500
               (JError "Cannot read properties of null (reading 'stock')"))
  /\ Inventario.delete_producto cloud "zz" db0
     = (db0, res_status_json 500
               (JError "Cannot read properties of null (reading 'fotoId')")).
Proof.
  repeat split; vm_compute; reflexivity.
Qed.

(** * Further properties of the handlers *)

(** ** What a call leaves in the database *)

(** A property of the product collection that every saved stock change
    keeps is kept by the whole loop, however it ends. *)
Lemma generic_for_invariant (I : gmap ObjectId Producto.t -> Prop)
  (pi : Policy) :
  (forall it m p,
      I m -> m !! Item.productoId it = Some p ->
      (is_Some (verifica_stock pi) -> Item.cantidad it <= Producto.stock p) ->
      I (<[Item.productoId it :=
             Producto.set_stock p
               (nuevo_stock pi (Producto.stock p) (Item.cantidad it))]> m)) ->
  forall items total acc db db' c,
    I (Productos db) ->
    generic_for pi items total acc db = (db', c) ->
    I (Productos db').
Proof.
  intros Hstep. induction items as [|it rest IH];
    intros total acc db db' c HI; simpl.
  - intros H; inversion H; subst; exact HI.
  - destruct (paso pi it db) as [r|[db1 li]] eqn:E.
    + intros H; inversion H; subst; exact HI.
    + apply paso_inr in E as (p & Hp & _ & -> & Hq).
      apply IH. simpl. by apply Hstep.
Qed.

Lemma recordTransaction_productos (e : Endpoint) (items : list Item.t)
  (cp : option string) (db : DB) :
  exists db1 c,
    generic_for (policy e) items 0 [] db = (db1, c)
    /\ Productos (fst (recordTransaction e items cp db)) = Productos db1.
Proof.
  rewrite recordTransaction_unfold.
  destruct (generic_for (policy e) items 0 [] db) as [db1 [[t l]|r|err]] eqn:E;
    do 2 eexists; (split; [reflexivity|]); try reflexivity.
  destruct (validar e l); [reflexivity|]. apply persistir_registro.
Qed.

Lemma recordTransaction_invariant (I : gmap ObjectId Producto.t -> Prop)
  (e : Endpoint) (items : list Item.t) (cp : option string) (db : DB) :
  (forall it m p,
      I m -> m !! Item.productoId it = Some p ->
      (is_Some (verifica_stock (policy e)) ->
       Item.cantidad it <= Producto.stock p) ->
      I (<[Item.productoId it :=
             Producto.set_stock p
               (nuevo_stock (policy e) (Producto.stock p) (Item.cantidad it))]> m)) ->
  I (Productos db) ->
  I (Productos (fst (recordTransaction e items cp db))).
Proof.
  intros Hstep HI.
  destruct (recordTransaction_productos e items cp db) as (db1 & c & Hloop & ->).
  eapply generic_for_invariant; eauto.
Qed.

(** The state a call leaves, however it ends: the stock changes of the
    items that were processed, a prefix of the request, and nothing else in
    the product collection. *)
Lemma recordTransaction_estado (e : Endpoint) (items : list Item.t)
  (cp : option string) (db : DB) :
  exists pre post,
    items = pre ++ post
    /\ (forall id,
          Productos (fst (recordTransaction e items cp db)) !! id =
          (fun p => Producto.set_stock p
                      (stock_tras (policy e) id pre (Producto.stock p)))
            <$> Productos db !! id)
    /\ (status (snd (recordTransaction e items cp db)) = 200%nat -> post = []).
Proof.
  rewrite recordTransaction_unfold.
  destruct (generic_for (policy e) items 0 [] db) as [db1 [[t l]|r|err]] eqn:E.
  - pose proof (generic_for_normal _ _ _ _ _ _ _ _ E)
      as (_ & _ & _ & _ & Hst & _ & _).
    exists items, []. rewrite app_nil_r. split; [reflexivity|].
    split; [|reflexivity].
    intros id. rewrite <- Hst.
    destruct (validar e l); [reflexivity|]. cbn [fst].
    by destruct (persistir_registro e db1 t l cp) as [-> _].
  - apply generic_for_return in E as (pre & it & post & t1 & a1 & -> & Hpre & Hit).
    pose proof (generic_for_normal _ _ _ _ _ _ _ _ Hpre)
      as (_ & _ & _ & _ & Hst & _ & _).
    exists pre, (it :: post). split; [reflexivity|]. split; [exact Hst|].
    simpl. intros Hs. apply paso_inl_status in Hit as [[H4|H4] _]; congruence.
  - by apply generic_for_no_throw in E.
Qed.

Lemma stock_tras_ajeno (pi : Policy) (id : ObjectId) (items : list Item.t) :
  Forall (fun it => Item.productoId it <> id) items ->
  forall s, stock_tras pi id items s = s.
Proof.
  induction 1 as [|it rest Hne _ IH]; intros s; [reflexivity|].
  rewrite stock_tras_cons, bool_decide_eq_false_2 by assumption. apply IH.
Qed.

(** ** Sales *)

(** X1. A sale handler never leaves a negative stock behind: if no product
    has a negative stock before the call, none has one after it, whatever
    the quantities in the request (negative ones included) and however the
    call ends. *)
Theorem sale_keeps_stock_nonnegative (e : Endpoint) (items : list Item.t)
  (cp : option string) (db : DB) :
  kind e = Sale ->
  stock_no_negativo (Productos db) ->
  stock_no_negativo (Productos (fst (recordTransaction e items cp db))).
Proof.
  intros Hk Hdb. apply recordTransaction_invariant; [|exact Hdb].
  intros it m p Hm Hp Hq id p' Hp'.
  apply lookup_insert_Some in Hp' as [[_ <-]|[_ Hp']]; [|by eapply Hm].
  destruct (verifica_stock_sale e Hk) as (msg & Hmsg & _).
  assert (Item.cantidad it <= Producto.stock p) by (apply Hq; rewrite Hmsg; eauto).
  assert (resta_stock (policy e) = true) as Hr
    by (destruct e; try discriminate; reflexivity).
  simpl. unfold nuevo_stock. rewrite Hr. lra.
Qed.

Lemma db0_productos (id : ObjectId) (p : Producto.t) :
  Productos db0 !! id = Some p -> p = A1 \/ p = B2.
Proof.
  unfold db0. simpl. intros Hp.
  apply lookup_insert_Some in Hp as [[_ <-]|[_ Hp]]; [by left|].
  apply lookup_insert_Some in Hp as [[_ <-]|[_ Hp]]; [by right|].
  by rewrite lookup_empty in Hp.
Qed.

Lemma db0_stock_no_negativo : stock_no_negativo (Productos db0).
Proof.
  intros id p Hp. apply db0_productos in Hp as [-> | ->]; simpl; lra.
Qed.

Lemma sale_keeps_stock_nonnegative_witness :
  stock_no_negativo
    (Productos (fst (recordTransaction BackendVentas
                       [item "a1" (-4) 100; item "b2" 5 50; item "b2" 1 50]
                       None db0))).
Proof.
  apply (sale_keeps_stock_nonnegative BackendVentas
           [item "a1" (-4) 100; item "b2" 5 50; item "b2" 1 50] None db0
           eq_refl db0_stock_no_negativo).
Defined.

(** After a loop that checks and subtracts stock went through, every
    product the request names has a stock that is not negative. *)
Lemma generic_for_vendido (pi : Policy) (items : list Item.t) :
  is_Some (verifica_stock pi) -> resta_stock pi = true ->
  forall total acc db db' total' acc',
    generic_for pi items total acc db = (db', Normal (total', acc')) ->
    forall it, it ∈ items ->
      exists p', Productos db' !! Item.productoId it = Some p'
                 /\ 0 <= Producto.stock p'.
Proof.
  intros Hv Hr. induction items as [|it rest IH];
    intros total acc db db' total' acc' Hloop it0 Hin.
  - by apply elem_of_nil in Hin.
  - simpl in Hloop.
    destruct (paso pi it db) as [r|[db1 li]] eqn:E; [discriminate|].
    apply paso_inr in E as (p & Hp & _ & -> & Hq).
    destruct (decide (Exists (fun i => Item.productoId i = Item.productoId it0)
                        rest)) as [Hex|Hnex].
    + apply Exists_exists in Hex as (i & Hi & Hid).
      rewrite <- Hid. by eapply IH.
    + apply elem_of_cons in Hin as [->|Hin];
        [|exfalso; apply Hnex, Exists_exists; eauto].
      apply not_Exists_Forall in Hnex; [|intros i; apply _].
      pose proof (generic_for_normal _ _ _ _ _ _ _ _ Hloop)
        as (_ & _ & _ & _ & Hst & _ & _).
      rewrite Hst. simpl. rewrite lookup_insert_eq. simpl.
      eexists. split; [reflexivity|]. simpl.
      rewrite stock_tras_ajeno by exact Hnex.
      unfold nuevo_stock. rewrite Hr. specialize (Hq Hv). lra.
Qed.

(** X2. After a Sale that answers 200, each product's stock is its prior
    stock with the quantities of the items that name it subtracted one
    after the other, in request order; a product the request does not name
    is left exactly as it was; a product the request names ends with a
    stock that is not negative, whatever stock it had before.  No product
    appears or disappears. *)
Theorem sale_stock_accounting (e : Endpoint) (items : list Item.t)
  (cp : option string) (db db' : DB) (r : Response) :
  kind e = Sale ->
  recordTransaction e items cp db = (db', r) -> status r = 200%nat ->
  (forall id p, Productos db !! id = Some p ->
     exists p',
       Productos db' !! id = Some p'
       /\ p' = Producto.set_stock p (Producto.stock p')
       /\ Producto.stock p' =
          fold_left
            (fun s it =>
               if bool_decide (Item.productoId it = id)
               then s - Item.cantidad it else s)
            items (Producto.stock p)
       /\ (Forall (fun it => Item.productoId it <> id) items -> p' = p)
       /\ (Exists (fun it => Item.productoId it = id) items ->
           0 <= Producto.stock p'))
  /\ (forall id, Productos db !! id = None -> Productos db' !! id = None).
Proof.
  intros Hk H Hs.
  apply recordTransaction_200 in H as (db1 & total & lis & Hloop & _ & -> & ->);
    [|assumption].
  pose proof (generic_for_normal _ _ _ _ _ _ _ _ Hloop)
    as (_ & _ & _ & _ & Hst & _ & _).
  destruct (persistir_registro e db1 total lis cp) as [-> _].
  assert (resta_stock (policy e) = true) as Hr
    by (destruct e; try discriminate; reflexivity).
  split.
  - intros id p Hp. eexists. rewrite Hst, Hp. simpl.
    split; [reflexivity|]. split; [reflexivity|].
    split; [destruct e; try discriminate; reflexivity|]. split.
    + intros Haj. rewrite stock_tras_ajeno by exact Haj. apply set_stock_id.
    + intros Hex. apply Exists_exists in Hex as (it & Hin & Hid).
      destruct (verifica_stock_sale e Hk) as (msg & Hmsg & _).
      destruct (generic_for_vendido (policy e) items
                  (ex_intro _ msg Hmsg) Hr _ _ _ _ _ _ Hloop it Hin)
        as (p' & Hp' & Hnn).
      rewrite Hid, Hst, Hp in Hp'. inversion Hp'; subst p'. exact Hnn.
  - intros id Hp. by rewrite Hst, Hp.
Qed.

Lemma sale_stock_accounting_witness :
  (exists p',
     Productos (fst (recordTransaction InventarioVentas
                       [item "a1" 4 0; item "a1" 6 0] None db0)) !! "a1"
       = Some p'
     /\ Producto.stock p' = 10 - 4 - 6)
  /\ Productos (fst (recordTransaction InventarioVentas
                       [item "a1" 4 0; item "a1" 6 0] None db0)) !! "b2"
     = Some B2.
Proof.
  destruct (sale_stock_accounting InventarioVentas
              [item "a1" 4 0; item "a1" 6 0] None db0
              (fst (recordTransaction InventarioVentas
                      [item "a1" 4 0; item "a1" 6 0] None db0))
              (snd (recordTransaction InventarioVentas
                      [item "a1" 4 0; item "a1" 6 0] None db0))
              eq_refl eq_refl eq_refl) as [Hst _].
  split.
  - destruct (Hst "a1" A1 eq_refl) as (p' & Hp' & _ & Hs & _).
    exists p'. split; [exact Hp'|exact Hs].
  - destruct (Hst "b2" B2 eq_refl) as (p' & Hp' & _ & _ & Haj & _).
    assert (p' = B2) as <-; [|exact Hp'].
    apply Haj. repeat constructor; discriminate.
Defined.



(** X4. On the unified server a sale or purchase that is recorded has
    every quantity at least 1, and every item names a product with a code
    and a name: the schema lets no other record through. *)
Theorem backend_recorded_quantities (e : Endpoint) (items : list Item.t)
  (cp : option string) (db db' : DB) (r : Response) :
  e = BackendCompras \/ e = BackendVentas ->
  recordTransaction e items cp db = (db', r) -> status r = 200%nat ->
  Forall (fun it =>
            1 <= Item.cantidad it
            /\ exists p, Productos db !! Item.productoId it = Some p
                         /\ Producto.codigo p <> ""
                         /\ Producto.nombre p <> "") items.
Proof.
  intros He H Hs.
  apply recordTransaction_200_inv in H
    as (db1 & total & lis & _ & Hval & _ & _ & _ & _ & Hres); [|assumption].
  assert (Backend.productos_validate lis = None) as Hpv
    by (by destruct He as [-> | ->]).
  apply productos_validate_None in Hpv.
  clear -Hres Hpv. induction Hres as [|it li items lis (p & Hp & ->) _ IH].
  - constructor.
  - inversion Hpv as [|? ? Hli Hrest]; subst. constructor; [|by apply IH].
    unfold Backend.item_validate in Hli. simpl in Hli.
    destruct (String.eqb_spec (Producto.codigo p) "") as [|Hc]; [discriminate|].
    destruct (String.eqb_spec (Producto.nombre p) "") as [|Hn]; [discriminate|].
    destruct (Qltb (Item.cantidad it) 1) eqn:E; [discriminate|].
    apply Qltb_false in E. eauto.
Qed.

Lemma backend_recorded_quantities_witness :
  Forall (fun it =>
            1 <= Item.cantidad it
            /\ exists p, Productos db0 !! Item.productoId it = Some p
                         /\ Producto.codigo p <> ""
                         /\ Producto.nombre p <> "")
    [item "a1" 2 100; item "b2" 1 50].
Proof.
  apply (backend_recorded_quantities BackendVentas
           [item "a1" 2 100; item "b2" 1 50] None db0 _ _
           (or_intror eq_refl) eq_refl eq_refl).
Defined.

(** X5. A sale or purchase call changes nothing in the product collection
    but stock: however the call ends, it creates no product, deletes none,
    and every product keeps its code, name, category, prices, supplier and
    photo. *)
Theorem recordTransaction_changes_stock_only (e : Endpoint)
  (items : list Item.t) (cp : option string) (db : DB) (id : ObjectId) :
  match Productos db !! id,
        Productos (fst (recordTransaction e items cp db)) !! id with
  | Some p, Some p' => p' = Producto.set_stock p (Producto.stock p')
  | None, None => True
  | _, _ => False
  end.
Proof.
  destruct (recordTransaction_estado e items cp db) as (pre & post & _ & Hst & _).
  rewrite Hst. destruct (Productos db !! id); simpl; auto.
Qed.

(** X6. Records are only ever appended, one per successful call: a sale or
    purchase call that answers 200 appends the record it returns to its
    collection and leaves the other collection alone; a call that answers
    anything else leaves both collections as they were.  Records already
    stored are never changed. *)
Theorem records_append_only (e : Endpoint) (items : list Item.t)
  (cp : option string) (db : DB) :
  (status (snd (recordTransaction e items cp db)) = 200%nat
   /\ persistido db (fst (recordTransaction e items cp db))
        (body (snd (recordTransaction e items cp db))))
  \/ (status (snd (recordTransaction e items cp db)) <> 200%nat
      /\ Ventas (fst (recordTransaction e items cp db)) = Ventas db
      /\ Compras (fst (recordTransaction e items cp db)) = Compras db).
Proof.
  rewrite recordTransaction_unfold.
  destruct (generic_for (policy e) items 0 [] db) as [db1 [[t l]|r|err]] eqn:E.
  - pose proof (generic_for_normal _ _ _ _ _ _ _ _ E)
      as (_ & _ & _ & _ & _ & Hv & Hc).
    destruct (validar e l).
    + right. simpl. repeat split; [discriminate|assumption|assumption].
    + left. simpl. split; [reflexivity|by apply persistido_registro].
  - apply generic_for_return in E as (pre & it & post & t1 & a1 & _ & Hpre & Hit).
    pose proof (generic_for_normal _ _ _ _ _ _ _ _ Hpre)
      as (_ & _ & _ & _ & _ & Hv & Hc).
    right. simpl. repeat split; try assumption.
    apply paso_inl_status in Hit as [[H4|H4] _]; congruence.
  - by apply generic_for_no_throw in E.
Qed.

(** ** Deleting a product *)

Lemma delete_producto_unfold (cl : Cloudinary) (id : ObjectId) (db : DB) :
  Inventario.delete_producto cl id db =
  match Productos db !! id with
  | None =>
      (db, res_status_json 500
             (JError "Cannot read properties of null (reading 'fotoId')"))
  | Some p =>
      match (if String.eqb (Producto.fotoId p) "" then None
             else destroy cl (Producto.fotoId p)) with
      | Some err => (db, res_status_json 500 (JError (message err)))
      | None =>
          (con_productos db (delete id (Productos db)),
           res_json (JMensaje "Producto eliminado"))
      end
  end.
Proof.
  unfold Inventario.delete_producto, try_catch, bind, findById. simpl.
  destruct (Productos db !! id) as [p|]; simpl; [|reflexivity].
  destruct (String.eqb (Producto.fotoId p) ""); simpl; [reflexivity|].
  destruct (destroy cl (Producto.fotoId p)); reflexivity.
Qed.

Lemma patch_stock_unfold (id : ObjectId) (delta : Q) (db : DB) :
  Inventario.patch_stock id delta db =
  match Productos db !! id with
  | None =>
      (db, res_status_json 500
             (JError "Cannot read properties of null (reading 'stock')"))
  | Some p =>
      let p' :=
        if Qltb (Producto.stock p + delta) 0 then Producto.set_stock p 0
        else Producto.set_stock p (Producto.stock p + delta) in
      (con_productos db (<[id := p']> (Productos db)),
       res_json (JProducto id p'))
  end.
Proof.
  unfold Inventario.patch_stock, try_catch, bind, findById. simpl.
  destruct (Productos db !! id) as [p|]; simpl; [|reflexivity].
  destruct (Qltb (Producto.stock p + delta) 0); reflexivity.
Qed.

(** X7. Deleting an existing product whose photo, if it has one, Cloudinary
    removes, answers 200 and removes that product and nothing else: the
    other products and every stored sale and purchase stay.  From then on
    a sale or purchase whose first item names it answers 404 and changes
    nothing, and adjusting its stock or deleting it again answers 500 and
    changes nothing. *)
Theorem delete_removes_product (cl : Cloudinary) (id : ObjectId) (db : DB)
  (p : Producto.t) :
  Productos db !! id = Some p ->
  Producto.fotoId p = "" \/ destroy cl (Producto.fotoId p) = None ->
  exists db',
    Inventario.delete_producto cl id db
      = (db', res_json (JMensaje "Producto eliminado"))
    /\ Productos db' = delete id (Productos db)
    /\ Ventas db' = Ventas db /\ Compras db' = Compras db
    /\ (forall e cantidad precioUnitario post cp,
          recordTransaction e (item id cantidad precioUnitario :: post) cp db'
          = (db', res_status_json 404 (JError "Producto no encontrado")))
    /\ (forall delta,
          fst (Inventario.patch_stock id delta db') = db'
          /\ status (snd (Inventario.patch_stock id delta db')) = 500%nat)
    /\ fst (Inventario.delete_producto cl id db') = db'
    /\ status (snd (Inventario.delete_producto cl id db')) = 500%nat.
Proof.
  intros Hp Hfoto.
  exists (con_productos db (delete id (Productos db))).
  assert (Hgone : Productos (con_productos db (delete id (Productos db))) !! id
                  = None) by apply lookup_delete_eq.
  split.
  - rewrite delete_producto_unfold, Hp.
    destruct Hfoto as [-> | Hd]; [reflexivity|].
    rewrite Hd. by destruct (String.eqb (Producto.fotoId p) "").
  - repeat split; try reflexivity.
    + intros e cantidad precioUnitario post cp.
      apply (recordTransaction_stops e [] post
               (item id cantidad precioUnitario) cp _ _ 0 [] _ eq_refl).
      by apply paso_missing.
    + by rewrite patch_stock_unfold, Hgone.
    + by rewrite patch_stock_unfold, Hgone.
    + by rewrite delete_producto_unfold, Hgone.
    + by rewrite delete_producto_unfold, Hgone.
Qed.

Lemma delete_removes_product_witness :
  exists db',
    Inventario.delete_producto cloud "c3" db_foto
      = (db', res_json (JMensaje "Producto eliminado"))
    /\ Productos db' !! "c3" = None
    /\ Productos db' !! "a1" = Some A1
    /\ recordTransaction InventarioVentas [item "c3" 1 0] None db'
       = (db', res_status_json 404 (JError "Producto no encontrado")).
Proof.
  destruct (delete_removes_product cloud "c3" db_foto C3 eq_refl
              (or_intror eq_refl)) as (db' & Hr & Hprod & _ & _ & H404 & _).
  exists db'. split; [exact Hr|].
  rewrite Hprod. repeat split; try reflexivity. apply H404.
Defined.

(** X8. When the product has a photo and Cloudinary rejects its removal,
    the deletion stops there: the answer is 500 with the error's message
    and the product stays in the collection, untouched. *)
Theorem delete_stops_when_destroy_fails (cl : Cloudinary) (id : ObjectId)
  (db : DB) (p : Producto.t) (err : JsError) :
  Productos db !! id = Some p ->
  Producto.fotoId p <> "" ->
  destroy cl (Producto.fotoId p) = Some err ->
  Inventario.delete_producto cl id db
  = (db, res_status_json 500 (JError (message err))).
Proof.
  intros Hp Hfoto Hd. rewrite delete_producto_unfold, Hp, Hd.
  apply String.eqb_neq in Hfoto. by rewrite Hfoto.
Qed.

Lemma delete_stops_when_destroy_fails_witness :
  Inventario.delete_producto cloud_caido "c3" db_foto
  = (db_foto, res_status_json 500 (JError "Request Timeout")).
Proof.
  apply (delete_stops_when_destroy_fails cloud_caido "c3" db_foto C3
           {| name := "Error"; code := None; message := "Request Timeout" |}
           eq_refl).
  - discriminate.
  - reflexivity.
Defined.

(** ** Invariants of the product collection *)

Lemma solo_stock_unicos (m m' : gmap ObjectId Producto.t) :
  solo_stock m m' -> codigos_unicos m -> codigos_unicos m'.
Proof.
  intros Hs Hu i j p' q' Hi Hj Hc.
  apply Hs in Hi as (p & Hp & Hp'). apply Hs in Hj as (q & Hq & Hq').
  rewrite Hp', Hq' in Hc. by apply (Hu i j p q).
Qed.

Lemma solo_stock_valid (db db' : DB) :
  solo_stock (Productos db) (Productos db') -> db_valid db -> db_valid db'.
Proof.
  intros Hs Hv id p' Hp'. apply Hs in Hp' as (p & Hp & Heq).
  rewrite Heq. exact (Hv id p Hp).
Qed.

Lemma recordTransaction_solo_stock (e : Endpoint) (items : list Item.t)
  (cp : option string) (db : DB) :
  solo_stock (Productos db) (Productos (fst (recordTransaction e items cp db))).
Proof.
  destruct (recordTransaction_estado e items cp db) as (pre & post & _ & Hst & _).
  intros id p' Hp'. rewrite Hst in Hp'.
  destruct (Productos db !! id) as [p|]; [|discriminate].
  inversion Hp'; subst. by exists p.
Qed.

Lemma patch_stock_solo_stock (id : ObjectId) (delta : Q) (db : DB) :
  solo_stock (Productos db) (Productos (fst (Inventario.patch_stock id delta db))).
Proof.
  rewrite patch_stock_unfold. intros i p' Hp'.
  destruct (Productos db !! id) as [p|] eqn:Hp; simpl in Hp'.
  - apply lookup_insert_Some in Hp' as [[<- <-]|[_ Hp']].
    + exists p. split; [exact Hp|].
      by destruct (Qltb (Producto.stock p + delta) 0).
    + exists p'. by rewrite set_stock_id.
  - exists p'. by rewrite set_stock_id.
Qed.

Lemma delete_producto_solo_stock (cl : Cloudinary) (id : ObjectId) (db : DB) :
  solo_stock (Productos db)
    (Productos (fst (Inventario.delete_producto cl id db))).
Proof.
  rewrite delete_producto_unfold. intros i p' Hp'.
  exists p'. rewrite set_stock_id. split; [|reflexivity].
  destruct (Productos db !! id) as [p|]; [|exact Hp'].
  destruct (if String.eqb (Producto.fotoId p) "" then None
            else destroy cl (Producto.fotoId p)); [exact Hp'|].
  simpl in Hp'. by apply lookup_delete_Some in Hp' as [_ Hp'].
Qed.

(** What a 200 answer of POST /api/productos means, and what any other
    answer leaves. *)
Lemma post_productos_inv (cl : Cloudinary) (id : ObjectId)
  (b : Inventario.Body.t) (db : DB) :
  (exists foto,
     foto_de cl b = inr foto
     /\ Inventario.Body.codigo b <> "" /\ Inventario.Body.nombre b <> ""
     /\ (forall i p, Productos db !! i = Some p ->
           Producto.codigo p <> Inventario.Body.codigo b)
     /\ Productos db !! id = None
     /\ Inventario.post_productos cl id b db
        = (con_productos db (<[id := nuevo_de b foto]> (Productos db)),
           res_json (JProducto id (nuevo_de b foto))))
  \/ (fst (Inventario.post_productos cl id b db) = db
      /\ status (snd (Inventario.post_productos cl id b db)) <> 200%nat).
Proof.
  rewrite post_productos_unfold.
  destruct (foto_de cl b) as [err|foto] eqn:F.
  - right. unfold catch_productos. by case_bool_decide.
  - destruct (Inventario.productoSchema_validate (nuevo_de b foto)) eqn:V;
      [by right|].
    apply productoSchema_validate_None in V as [Hc Hn].
    destruct (Inventario.codigo_en_uso (Inventario.Body.codigo b) (Productos db))
      eqn:U; [by right|].
    case_bool_decide as Hid; [by right|]. simpl.
    left. exists foto. repeat split; auto.
    + intros i p Hp Hcod.
      assert (Inventario.codigo_en_uso (Inventario.Body.codigo b) (Productos db)
              = true) by (apply codigo_en_uso_true; eauto).
      congruence.
    + destruct (Productos db !! id) eqn:E; [|reflexivity].
      exfalso. apply Hid. eauto.
Qed.

Lemma db0_lookup (id : ObjectId) (p : Producto.t) :
  Productos db0 !! id = Some p ->
  (id = "a1" /\ p = A1) \/ (id = "b2" /\ p = B2).
Proof.
  unfold db0. simpl. intros Hp.
  apply lookup_insert_Some in Hp as [[<- <-]|[_ Hp]]; [by left|].
  apply lookup_insert_Some in Hp as [[<- <-]|[_ Hp]]; [by right|].
  by rewrite lookup_empty in Hp.
Qed.

Lemma db0_codigos_unicos : codigos_unicos (Productos db0).
Proof.
  intros i j p q Hi Hj Hc.
  apply db0_lookup in Hi as [[-> ->]|[-> ->]];
    apply db0_lookup in Hj as [[-> ->]|[-> ->]];
    reflexivity || discriminate Hc.
Qed.

Lemma db0_valid : db_valid db0.
Proof.
  intros id p Hp. apply db0_lookup in Hp as [[_ ->]|[_ ->]]; by split.
Qed.

(** X9. The product codes stay unique: if no two products of the collection
    share a code, none do after creating a product (whatever the handler
    answers), after a sale or purchase call, after a stock adjustment, or
    after a deletion. *)
Theorem codes_stay_unique (cl : Cloudinary) (e : Endpoint)
  (items : list Item.t) (cp : option string) (id : ObjectId) (delta : Q)
  (b : Inventario.Body.t) (db : DB) :
  codigos_unicos (Productos db) ->
  codigos_unicos (Productos (fst (Inventario.post_productos cl id b db)))
  /\ codigos_unicos (Productos (fst (recordTransaction e items cp db)))
  /\ codigos_unicos (Productos (fst (Inventario.patch_stock id delta db)))
  /\ codigos_unicos (Productos (fst (Inventario.delete_producto cl id db))).
Proof.
  intros Hu. split; [|split; [|split]].
  - destruct (post_productos_inv cl id b db)
      as [(foto & _ & _ & _ & Hlibre & _ & ->)|[-> _]]; [|exact Hu].
    simpl. intros i j p q Hi Hj Hc.
    apply lookup_insert_Some in Hi as [[<- <-]|[Hni Hi]];
      apply lookup_insert_Some in Hj as [[<- <-]|[Hnj Hj]].
    + reflexivity.
    + exfalso. by apply (Hlibre j q Hj).
    + exfalso. by apply (Hlibre i p Hi).
    + by apply (Hu i j p q).
  - eapply solo_stock_unicos; [apply recordTransaction_solo_stock|exact Hu].
  - eapply solo_stock_unicos; [apply patch_stock_solo_stock|exact Hu].
  - eapply solo_stock_unicos; [apply delete_producto_solo_stock|exact Hu].
Qed.

Lemma codes_stay_unique_witness :
  codigos_unicos
    (Productos (fst (Inventario.post_productos cloud "c3"
                       (cuerpo "C3" "Harina") db0)))
  /\ codigos_unicos
       (Productos (fst (Inventario.post_productos cloud "d4"
                          (cuerpo "A1" "Otra yerba") db0))).
Proof.
  split.
  - apply (codes_stay_unique cloud InventarioVentas [] None "c3" 0
             (cuerpo "C3" "Harina") db0 db0_codigos_unicos).
  - apply (codes_stay_unique cloud InventarioVentas [] None "d4" 0
             (cuerpo "A1" "Otra yerba") db0 db0_codigos_unicos).
Defined.

(** X10. Every product keeps a code and a name: if all products of the
    collection have both, they all do after creating a product (a body
    without a code or a name is refused), after a sale or purchase call,
    after a stock adjustment, or after a deletion. *)
Theorem products_keep_code_and_name (cl : Cloudinary) (e : Endpoint)
  (items : list Item.t) (cp : option string) (id : ObjectId) (delta : Q)
  (b : Inventario.Body.t) (db : DB) :
  db_valid db ->
  db_valid (fst (Inventario.post_productos cl id b db))
  /\ db_valid (fst (recordTransaction e items cp db))
  /\ db_valid (fst (Inventario.patch_stock id delta db))
  /\ db_valid (fst (Inventario.delete_producto cl id db)).
Proof.
  intros Hv. split; [|split; [|split]].
  - destruct (post_productos_inv cl id b db)
      as [(foto & _ & Hc & Hn & _ & _ & ->)|[-> _]]; [|exact Hv].
    simpl. intros i p Hp. simpl in Hp.
    apply lookup_insert_Some in Hp as [[_ <-]|[_ Hp]]; [by split|].
    by apply (Hv i).
  - eapply solo_stock_valid; [apply recordTransaction_solo_stock|exact Hv].
  - eapply solo_stock_valid; [apply patch_stock_solo_stock|exact Hv].
  - eapply solo_stock_valid; [apply delete_producto_solo_stock|exact Hv].
Qed.

Lemma products_keep_code_and_name_witness :
  db_valid (fst (Inventario.post_productos cloud "c3" (cuerpo "C3" "") db0))
  /\ db_valid (fst (Inventario.post_productos cloud "c3"
                      (cuerpo "C3" "Harina") db0)).
Proof.
  split.
  - apply (products_keep_code_and_name cloud InventarioVentas [] None "c3" 0
             (cuerpo "C3" "") db0 db0_valid).
  - apply (products_keep_code_and_name cloud InventarioVentas [] None "c3" 0
             (cuerpo "C3" "Harina") db0 db0_valid).
Defined.

(** ** Handlers in sequence *)

(** X11. Creating a product and then deleting it gives back the database
    as it was before, record collections included, provided Cloudinary
    removes the photo when one was uploaded. *)
Theorem create_then_delete (cl : Cloudinary) (id : ObjectId)
  (b : Inventario.Body.t) (db db1 : DB) (r1 : Response) :
  Inventario.post_productos cl id b db = (db1, r1) ->
  status r1 = 200%nat ->
  (forall foto, foto_de cl b = inr foto ->
     snd foto = "" \/ destroy cl (snd foto) = None) ->
  Inventario.delete_producto cl id db1
  = (db, res_json (JMensaje "Producto eliminado")).
Proof.
  intros H Hs Hfoto.
  destruct (post_productos_inv cl id b db)
    as [(foto & Hf & _ & _ & _ & Hid & Hr)|[_ Hns]];
    [|rewrite H in Hns; by destruct Hns].
  rewrite Hr in H. inversion H; subst db1 r1. clear H.
  rewrite delete_producto_unfold. simpl. rewrite lookup_insert_eq. simpl.
  rewrite delete_insert_id by exact Hid.
  replace (con_productos _ (Productos db)) with db by (by destruct db).
  destruct (Hfoto foto Hf) as [-> | Hd]; [reflexivity|].
  rewrite Hd. by destruct (String.eqb (snd foto) "").
Qed.

Lemma create_then_delete_witness :
  Inventario.delete_producto cloud "c3"
    (fst (Inventario.post_productos cloud "c3" (cuerpo "C3" "Harina") db0))
  = (db0, res_json (JMensaje "Producto eliminado")).
Proof.
  apply (create_then_delete cloud "c3" (cuerpo "C3" "Harina") db0 _ _
           eq_refl eq_refl).
  intros foto Hf. right. reflexivity.
Defined.

(** ** Stock adjustments in sequence *)

(** X14. The clamp loses stock: taking out more units than a product has
    and then putting the same number back does not restore the stock; the
    product ends with exactly the number of units put back, which is more
    than it had. *)
Theorem clamp_is_not_undone (id : ObjectId) (d : Q) (db : DB)
  (p : Producto.t) :
  Productos db !! id = Some p ->
  0 <= Producto.stock p -> Producto.stock p < d ->
  exists p2,
    Productos (fst (Inventario.patch_stock id d
                      (fst (Inventario.patch_stock id (- d) db)))) !! id
      = Some p2
    /\ Producto.stock p2 == d
    /\ Producto.stock p < Producto.stock p2.
Proof.
  intros Hp H0 Hd.
  rewrite (patch_stock_unfold id (- d)), Hp. simpl.
  assert (Qltb (Producto.stock p + - d) 0 = true) as ->
    by (apply Qltb_true; lra).
  simpl. rewrite patch_stock_unfold. simpl. rewrite lookup_insert_eq. simpl.
  assert (Qltb (0 + d) 0 = false) as -> by (apply Qltb_false; lra).
  simpl. rewrite lookup_insert_eq. eexists. split; [reflexivity|].
  simpl. split; [ring|lra].
Qed.

Lemma clamp_is_not_undone_witness :
  exists p2,
    Productos (fst (Inventario.patch_stock "b2" 8
                      (fst (Inventario.patch_stock "b2" (- 8) db0)))) !! "b2"
      = Some p2
    /\ Producto.stock p2 == 8
    /\ Producto.stock B2 < Producto.stock p2.
Proof.
  apply (clamp_is_not_undone "b2" 8 db0 B2 eq_refl).
  - discriminate.
  - reflexivity.
Defined.

(** ** Amounts *)




(** ** Creating, then selling *)

(** X16. A product that was just created is sold by the inventory server
    from the stock its body gave, 0 when the body gave none, and at the
    sale price its body gave: a one-item Sale of no more than that stock
    answers 200 with a line item carrying the body's code, name and sale
    price and leaves the stock minus the quantity; a Sale of more answers
    400 'Stock insuficiente para <name>' and changes nothing. *)
Theorem created_product_is_sold (cl : Cloudinary) (id : ObjectId)
  (b : Inventario.Body.t) (db db1 : DB) (r1 : Response)
  (cantidad precioUnitario : Q) (cp : option string) :
  Inventario.post_productos cl id b db = (db1, r1) ->
  status r1 = 200%nat ->
  (cantidad <= default 0 (Inventario.Body.stock b) ->
   exists db2 v li p2,
     Inventario.post_ventas [item id cantidad precioUnitario] cp db1
       = (db2, res_json (JVenta v))
     /\ Venta.productos v = [li]
     /\ LineItem.codigo li = Inventario.Body.codigo b
     /\ LineItem.nombre li = Inventario.Body.nombre b
     /\ LineItem.precioUnitario li = Inventario.Body.precioVenta b
     /\ Productos db2 !! id = Some p2
     /\ Producto.stock p2 = default 0 (Inventario.Body.stock b) - cantidad)
  /\ (default 0 (Inventario.Body.stock b) < cantidad ->
      Inventario.post_ventas [item id cantidad precioUnitario] cp db1
      = (db1, res_status_json 400
                (JError ("Stock insuficiente para "
                         +:+ Inventario.Body.nombre b)))).
Proof.
  intros H Hs.
  destruct (post_productos_inv cl id b db)
    as [(foto & _ & _ & _ & _ & _ & Hr)|[_ Hns]];
    [|rewrite H in Hns; by destruct Hns].
  rewrite Hr in H. inversion H; subst db1 r1. clear H Hr.
  set (db1 := con_productos db (<[id := nuevo_de b foto]> (Productos db))).
  assert (Hp : Productos db1 !! id = Some (nuevo_de b foto))
    by apply lookup_insert_eq.
  change (Inventario.post_ventas [item id cantidad precioUnitario] cp db1)
    with (recordTransaction InventarioVentas
            [item id cantidad precioUnitario] cp db1).
  split.
  - intros Hq. rewrite recordTransaction_unfold. simpl. unfold paso. simpl.
    rewrite lookup_insert_eq. simpl.
    apply Qltb_false in Hq. rewrite Hq. simpl.
    do 4 eexists. split; [reflexivity|]. simpl.
    rewrite lookup_insert_eq. repeat split; reflexivity.
  - intros Hq.
    apply (recordTransaction_stops InventarioVentas [] []
             (item id cantidad precioUnitario) cp db1 db1 0 [] _ eq_refl).
    exact (paso_sin_stock (policy InventarioVentas)
             (item id cantidad precioUnitario) db1 (nuevo_de b foto)
             (fun producto =>
                "Stock insuficiente para " +:+ Producto.nombre producto)
             Hp eq_refl Hq).
Qed.

Lemma created_product_is_sold_witness :
  (exists db2 v li p2,
     Inventario.post_ventas [item "c3" 4 0] None
       (fst (Inventario.post_productos cloud "c3" (cuerpo "C3" "Harina") db0))
       = (db2, res_json (JVenta v))
     /\ Venta.productos v = [li]
     /\ LineItem.precioUnitario li = 20
     /\ Productos db2 !! "c3" = Some p2
     /\ Producto.stock p2 = 4 - 4)
  /\ Inventario.post_ventas [item "c3" 5 0] None
       (fst (Inventario.post_productos cloud "c3" (cuerpo "C3" "Harina") db0))
     = (fst (Inventario.post_productos cloud "c3" (cuerpo "C3" "Harina") db0),
        res_status_json 400 (JError "Stock insuficiente para Harina")).
Proof.
  split.
  - destruct (created_product_is_sold cloud "c3" (cuerpo "C3" "Harina") db0
                _ _ 4 0 None eq_refl eq_refl) as [Hok _].
    destruct Hok as (db2 & v & li & p2 & Hr & Hl & _ & _ & Hpr & Hp2 & Hs);
      [discriminate|].
    exists db2, v, li, p2. auto.
  - destruct (created_product_is_sold cloud "c3" (cuerpo "C3" "Harina") db0
                _ _ 5 0 None eq_refl eq_refl) as [_ Hno].
    apply Hno. reflexivity.
Defined.
